(** * pc2mqtt: entity registry, publication protocol and command dispatch

    A shallow embedding of the Go packages [system], [entities] and [main]
    of pc2mqtt, and the properties of its specification checked against it.

    Conventions of the embedding:
    - Go strings are [string]; [+] on strings is [+:+].
    - A Go [(T, error)] result is a [result T].
    - The global configuration returned by [appconfig.RequireConfig()] and
      the constants [runtime.GOOS] / [runtime.GOARCH] are explicit arguments.
    - Code that talks to the MQTT client, the logger or the operating system
      runs in the monad [M]: it threads a [World] (the package-level
      variables of [main] and the trace of effects issued so far) and can
      stop the process ([os.Exit], [log.Fatal]).
    - What the environment answers (whether a token carries an error,
      whether a wait timed out) is read from an oracle indexed by the number
      of tokens issued so far, so every theorem holds for every behaviour of
      the broker.
    - A function is embedded in its program order.  The goroutines of
      [main] (the one each on-connect callback starts and the one that
      waits for a signal) are also embedded as phases, run by a scheduler
      ([tick]) that may switch goroutine between two phases, so that
      schedules in which they overlap can be stated. *)

From Stdlib Require Import ZArith Lia Ascii.
From stdpp Require Import base strings pretty list gmap.

Local Open Scope Z_scope.
Local Open Scope string_scope.
Local Open Scope list_scope.

(** ** Go results *)

Inductive result (A : Type) : Type :=
| Ok (a : A)
| Err (msg : string).
Arguments Ok {A} a.
Arguments Err {A} msg.

Definition is_err {A} (r : result A) : bool :=
  match r with Ok _ => false | Err _ => true end.

(** ** Package appconfig *)

(** Modelled from the spec: the configuration object of package [appconfig]
    (its declaration is not part of the sources at hand); the fields are the
    ones the code reads: device id, device name, debug-mode flag and the MQTT
    discovery prefix, host, port, username and password. *)
Record MqttConfig := {
  AutoDiscoveryPrefix : string;
  Host : string;
  Port : Z;
  Username : string;
  Password : string
}.

Record Config := {
  DeviceId : string;
  DeviceName : string;
  DebugMode : bool;
  Mqtt : MqttConfig
}.

(** [runtime.GOOS] and [runtime.GOARCH]. *)
Record Runtime := {
  GOOS : string;
  GOARCH : string
}.

(** ** Package system *)

Module system.

Definition WINDOWS := "windows".
Definition MACOS := "darwin".
Definition LINUX := "linux".

(** [*exec.Cmd] as built by [exec.Command name args...]. *)
Record Cmd := Command {
  Path : string;
  Args : list string
}.

Definition GetShutdownCommand (rt : Runtime) : result Cmd :=
  if String.eqb (GOOS rt) WINDOWS then Ok (Command "shutdown" ["/s"])
  else if String.eqb (GOOS rt) MACOS then Ok (Command "shutdown" ["-h"; "now"])
  else if String.eqb (GOOS rt) LINUX then
    Ok (Command "systemctl" ["poweroff"; "--ignore-inhibitors"])
  else Err (GOOS rt +:+ " does not support shutdown").

Definition GetRebootCommand (rt : Runtime) : result Cmd :=
  if String.eqb (GOOS rt) WINDOWS then Ok (Command "shutdown" ["/r"])
  else if String.eqb (GOOS rt) MACOS then Ok (Command "reboot" [])
  else if String.eqb (GOOS rt) LINUX then
    Ok (Command "systemctl" ["reboot"; "--ignore-inhibitors"])
  else Err (GOOS rt +:+ " does not support reboot").

(** The host OS is one of the three the package knows. *)
Definition supported (rt : Runtime) : Prop :=
  GOOS rt = WINDOWS ∨ GOOS rt = MACOS ∨ GOOS rt = LINUX.

End system.

(** ** Package entities: the entity model *)

(** Modelled from the spec: the struct declarations of package [entities]
    (Device, Availability, DiscoveryConfig, BinarySensor, Button and the
    Entity interface) are not part of the sources at hand; the fields are
    the ones [GetEntities] fills in, a field left out of a composite literal
    holding Go's zero value (the empty string, 0). *)
Record Device := {
  Identifiers : string;
  Manufacturer : string;
  Model : string;
  DeviceName_ : string   (* field [Name] of Device *)
}.

Record Availability := {
  Topic : string;
  PayloadAvailable : string;
  PayloadNotAvailable : string
}.

Record DiscoveryConfig := {
  Device_ : Device;
  Availability_ : Availability;
  DefaultEntityId : string;
  UniqueId : string;
  Name : string;
  Icon : string;
  StateTopic : string;
  CommandTopic : string;
  PayloadOn : string;
  PayloadOff : string;
  Qos : Z
}.

(** The three closures stored in [Button.Action], named by the button they
    belong to; their bodies are [runAction] below. *)
Inductive Action := ShutdownAction | RebootAction | TestAction.

Record BinarySensor := {
  Sensor_DiscoveryTopic : string;
  Sensor_DiscoveryConfig : DiscoveryConfig
}.

Record Button := {
  Button_Action : Action;
  Button_DiscoveryTopic : string;
  Button_DiscoveryConfig : DiscoveryConfig
}.

(** The interface [Entity] with its two implementations. *)
Inductive Entity :=
| EBinarySensor (s : BinarySensor)
| EButton (b : Button).

Definition GetDiscoveryTopic (e : Entity) : string :=
  match e with
  | EBinarySensor s => Sensor_DiscoveryTopic s
  | EButton b => Button_DiscoveryTopic b
  end.

Definition GetDiscoveryConfig (e : Entity) : DiscoveryConfig :=
  match e with
  | EBinarySensor s => Sensor_DiscoveryConfig s
  | EButton b => Button_DiscoveryConfig b
  end.

(** The interface [EntityWithCommand]: of the two entity types only [Button]
    has a [QueueAction] method. *)
Definition EntityWithCommand := Button.

(** Modelled from the spec: [FilterEntitiesWithCommands] is not part of the
    sources at hand; "performs a type-preserving filter, preserving input
    order", it "includes exactly the Button-like entities, excluding
    BinarySensor-like entities". *)
Fixpoint FilterEntitiesWithCommands (entityList : list Entity)
  : list EntityWithCommand :=
  match entityList with
  | [] => []
  | EBinarySensor _ :: rest => FilterEntitiesWithCommands rest
  | EButton b :: rest => b :: FilterEntitiesWithCommands rest
  end.

(** ** Package entities: the registry *)

Definition payloadOnline := "online".
Definition payloadOffline := "offline".

Definition GetDeviceAvailability (appConf : Config) : Availability :=
  {| Topic := DeviceName appConf +:+ "/state";
     PayloadAvailable := payloadOnline;
     PayloadNotAvailable := payloadOffline |}.

Definition GetDevice (rt : Runtime) (appConf : Config) : Device :=
  {| Identifiers := DeviceId appConf;
     Manufacturer := GOOS rt +:+ "/" +:+ GOARCH rt;
     Model := DeviceName appConf;
     DeviceName_ := DeviceName appConf |}.

Definition powerSensor (rt : Runtime) (appConf : Config) : BinarySensor :=
  {| Sensor_DiscoveryTopic :=
       AutoDiscoveryPrefix (Mqtt appConf) +:+ "/binary_sensor/" +:+ DeviceId appConf
         +:+ "/" +:+ DeviceName appConf +:+ "_sensor_power/config";
     Sensor_DiscoveryConfig :=
       {| Device_ := GetDevice rt appConf;
          Availability_ :=
            {| Topic := DeviceName appConf +:+ "/binary_sensor/availability";
               PayloadAvailable := payloadOnline;
               PayloadNotAvailable := payloadOffline |};
          DefaultEntityId := "binary_sensor." +:+ DeviceName appConf +:+ "_sensor_power";
          UniqueId := DeviceName appConf +:+ "_sensor_power";
          Name := "Power";
          Icon := "mdi:power";
          StateTopic := Topic (GetDeviceAvailability appConf);
          CommandTopic := "";
          PayloadOn := PayloadAvailable (GetDeviceAvailability appConf);
          PayloadOff := PayloadNotAvailable (GetDeviceAvailability appConf);
          Qos := 1 |} |}.

Definition shutdownButton (rt : Runtime) (appConf : Config) : Button :=
  {| Button_Action := ShutdownAction;
     Button_DiscoveryTopic :=
       AutoDiscoveryPrefix (Mqtt appConf) +:+ "/button/" +:+ DeviceId appConf
         +:+ "/" +:+ DeviceName appConf +:+ "_button_shutdown/config";
     Button_DiscoveryConfig :=
       {| Device_ := GetDevice rt appConf;
          Availability_ := GetDeviceAvailability appConf;
          DefaultEntityId := "button." +:+ DeviceName appConf +:+ "_button_shutdown";
          UniqueId := DeviceName appConf +:+ "_button_shutdown";
          Name := "Shutdown";
          Icon := "mdi:power";
          StateTopic := DeviceName appConf +:+ "/button/shutdown/state";
          CommandTopic := DeviceName appConf +:+ "/button/shutdown/command";
          PayloadOn := "";
          PayloadOff := "";
          Qos := 1 |} |}.

Definition rebootButton (rt : Runtime) (appConf : Config) : Button :=
  {| Button_Action := RebootAction;
     Button_DiscoveryTopic :=
       AutoDiscoveryPrefix (Mqtt appConf) +:+ "/button/" +:+ DeviceId appConf
         +:+ "/" +:+ DeviceName appConf +:+ "_button_reboot/config";
     Button_DiscoveryConfig :=
       {| Device_ := GetDevice rt appConf;
          Availability_ := GetDeviceAvailability appConf;
          DefaultEntityId := "button." +:+ DeviceName appConf +:+ "_button_reboot";
          UniqueId := DeviceName appConf +:+ "_button_reboot";
          Name := "Reboot";
          Icon := "mdi:restart";
          StateTopic := DeviceName appConf +:+ "/button/reboot/state";
          CommandTopic := DeviceName appConf +:+ "/button/reboot/command";
          PayloadOn := "";
          PayloadOff := "";
          Qos := 1 |} |}.

(** The button appended in debug mode; its literal sets no [Qos]. *)
Definition testButton (rt : Runtime) (appConf : Config) : Button :=
  {| Button_Action := TestAction;
     Button_DiscoveryTopic :=
       AutoDiscoveryPrefix (Mqtt appConf) +:+ "/button/" +:+ DeviceId appConf
         +:+ "/" +:+ DeviceName appConf +:+ "_button_test/config";
     Button_DiscoveryConfig :=
       {| Device_ := GetDevice rt appConf;
          Availability_ := GetDeviceAvailability appConf;
          DefaultEntityId := "button." +:+ DeviceName appConf +:+ "_button_test";
          UniqueId := DeviceName appConf +:+ "_button_test";
          Name := "Test";
          Icon := "mdi:test-tube";
          StateTopic := DeviceName appConf +:+ "/button/test/state";
          CommandTopic := DeviceName appConf +:+ "/button/test/command";
          PayloadOn := "";
          PayloadOff := "";
          Qos := 0 |} |}.

Definition GetEntities (rt : Runtime) (appConf : Config) : list Entity :=
  let entityList :=
    [ EBinarySensor (powerSensor rt appConf);
      EButton (shutdownButton rt appConf);
      EButton (rebootButton rt appConf) ] in
  if DebugMode appConf
  then entityList ++ [EButton (testButton rt appConf)]
  else entityList.

(** ** Package main: effects *)

(** An operand of a [log.Printf] / [fmt.Sprintf] call. *)
Inductive Arg :=
| AStr (s : string)
| AInt (n : Z)
| AErr (e : string).

(** What [opts] holds when [createClient] hands it to [mqtt.NewClient]. *)
Record ClientOptions := {
  Broker : string;
  ClientID : string;
  OptUsername : string;
  OptPassword : string;
  CleanSession : bool;
  AutoReconnect : bool;
  ConnectRetry : bool;
  ConnectRetryInterval : Z;   (* milliseconds *)
  MaxReconnectInterval : Z;
  KeepAlive : Z;
  PingTimeout : Z;
  WillTopic : string;
  WillPayload : string;
  WillQos : Z;
  WillRetained : bool
}.

(** The effects of the process, in the order they are issued.  A log line is
    recorded as the format string and its operands ([log.Println s] is
    [Log s []]); a call on the MQTT client is recorded with its arguments;
    [SubscribeMultiple] also records the list the handler closure captured. *)
Inductive Event :=
| Log (format : string) (args : list Arg)
| NewClient (opts : ClientOptions)
| Connect
| Publish (topic : string) (qos : Z) (retained : bool) (payload : string)
| SubscribeMultiple (filters : gmap string Z) (handler : list EntityWithCommand)
| Disconnect (quiesce : Z)
| Wait
| WaitTimeout (ms : Z)
| Select (timeoutMs : Z)
| Sleep (ms : Z)
| Start (cmd : system.Cmd)
| Go (a : Action)
| MainCancel
| Exit (code : Z).

(** The package-level variables of [main] (the two channels of capacity one
    are the flags "the slot is taken"), the number of tokens handed out by
    the client so far and the trace. *)
Record World := {
  connectionLost : bool;
  connectionEstablished : bool;
  initialConnectionDone : bool;
  tokens : nat;
  trace : list Event
}.

Definition initialWorld : World :=
  {| connectionLost := false;
     connectionEstablished := false;
     initialConnectionDone := false;
     tokens := 0%nat;
     trace := [] |}.

(** A computation either returns or ends the process with an exit code. *)
Inductive Outcome (A : Type) : Type :=
| Ret (a : A)
| Exited (code : Z).
Arguments Ret {A} a.
Arguments Exited {A} code.

Definition M (A : Type) : Type := World → Outcome A * World.

Global Instance M_ret : MRet M := λ A a w, (Ret a, w).

Global Instance M_bind : MBind M := λ A B k m w,
  match m w with
  | (Ret a, w') => k a w'
  | (Exited c, w') => (Exited c, w')
  end.

Definition emit (ev : Event) : M unit :=
  λ w, (Ret tt, {| connectionLost := connectionLost w;
                   connectionEstablished := connectionEstablished w;
                   initialConnectionDone := initialConnectionDone w;
                   tokens := tokens w;
                   trace := trace w ++ [ev] |}).

(** [os.Exit code]. *)
Definition osExit {A} (code : Z) : M A :=
  λ w, (Exited code, {| connectionLost := connectionLost w;
                        connectionEstablished := connectionEstablished w;
                        initialConnectionDone := initialConnectionDone w;
                        tokens := tokens w;
                        trace := trace w ++ [Exit code] |}).

(** [log.Fatal], [log.Fatalln], [log.Fatalf]: the line, then [os.Exit(1)]. *)
Definition logFatal {A} (format : string) (args : list Arg) : M A :=
  emit (Log format args);; osExit 1.

(** A call on the client that returns a token: the token's number. *)
Definition issue (ev : Event) : M nat :=
  λ w, (Ret (tokens w),
        {| connectionLost := connectionLost w;
           connectionEstablished := connectionEstablished w;
           initialConnectionDone := initialConnectionDone w;
           tokens := S (tokens w);
           trace := trace w ++ [ev] |}).

Definition readInitialConnectionDone : M bool :=
  λ w, (Ret (initialConnectionDone w), w).

Definition setInitialConnectionDone (b : bool) : M unit :=
  λ w, (Ret tt, {| connectionLost := connectionLost w;
                   connectionEstablished := connectionEstablished w;
                   initialConnectionDone := b;
                   tokens := tokens w;
                   trace := trace w |}).

(** [select { case ch <- struct{}{}: default: }] on a channel of capacity
    one: the value is stored when the slot is free and dropped otherwise. *)
Definition trySendEstablished : M unit :=
  λ w, (Ret tt, {| connectionLost := connectionLost w;
                   connectionEstablished := true;
                   initialConnectionDone := initialConnectionDone w;
                   tokens := tokens w;
                   trace := trace w |}).

Definition trySendLost : M unit :=
  λ w, (Ret tt, {| connectionLost := true;
                   connectionEstablished := connectionEstablished w;
                   initialConnectionDone := initialConnectionDone w;
                   tokens := tokens w;
                   trace := trace w |}).

(** [for i, x := range l { body }], counting from [i]. *)
Fixpoint forRange {A} (body : nat → A → M unit) (i : nat) (l : list A) : M unit :=
  match l with
  | [] => mret tt
  | x :: rest => body i x;; forRange body (S i) rest
  end.

(** What the environment decides: the result of [json.Marshal], the error a
    token ends with and whether it completes within a bounded wait (both by
    token number), the error of [cmd.Start()], the result of
    [appconfig.LoadConfig()] and whether the first connection is signalled
    before the timer of the start-up [select] fires. *)
Record Environment := {
  json_Marshal : DiscoveryConfig → result string;
  tokenError : nat → option string;
  completesInTime : nat → bool;
  startError : system.Cmd → option string;
  LoadConfig : result Config;
  connectsInTime : bool
}.

(** Go's [int] on the 64-bit targets: [n + 1] wraps around. *)
Definition wrapInt (z : Z) : Z := (z + 2 ^ 63) mod 2 ^ 64 - 2 ^ 63.

Inductive Signal := Interrupt | SIGTERM.

Definition signalName (sig : Signal) : string :=
  match sig with Interrupt => "interrupt" | SIGTERM => "terminated" end.

(** [mqtt.Message], as far as the handler reads it. *)
Record Message := {
  MsgTopic : string;
  MsgPayload : string
}.

Section Main.

Variable rt : Runtime.
Variable env : Environment.

(** [token.Wait()] returns when the token has completed; what is left of
    [token.Wait() && token.Error() != nil] is the token's error. *)
Definition wait (tok : nat) : M (option string) :=
  emit Wait;; mret (tokenError env tok).

(** [token.WaitTimeout(d)]: whether the token completed in time. *)
Definition waitTimeout (tok : nat) (ms : Z) : M bool :=
  emit (WaitTimeout ms);; mret (completesInTime env tok).

Definition debugLog (appConf : Config) (format : string) (args : list Arg) : M unit :=
  if DebugMode appConf then emit (Log format args) else mret tt.

(** *** Button actions (the closures of [GetEntities]) *)

Definition runAction (a : Action) : M unit :=
  match a with
  | ShutdownAction =>
      emit (Log "Shutdown button pressed - executing system shutdown" []);;
      match system.GetShutdownCommand rt with
      | Err err => emit (Log "Failed to get shutdown command: %v" [AErr err])
      | Ok cmd =>
          emit (Start cmd);;
          match startError env cmd with
          | Some err => emit (Log "Failed to start shutdown command: %v" [AErr err])
          | None => emit (Log "System shutdown initiated" [])
          end
      end
  | RebootAction =>
      emit (Log "Reboot button pressed - executing system reboot" []);;
      match system.GetRebootCommand rt with
      | Err err => emit (Log "Failed to get reboot command: %v" [AErr err])
      | Ok cmd =>
          emit (Start cmd);;
          match startError env cmd with
          | Some err => emit (Log "Failed to start reboot command: %v" [AErr err])
          | None => emit (Log "System reboot initiated" [])
          end
      end
  | TestAction => emit (Log "Test button pressed" [])
  end.

(** Modelled from the spec: [Button.QueueAction] is not part of the sources
    at hand; the dispatcher "invoke[s] its action asynchronously", recorded
    as the start of a goroutine running the button's action. *)
Definition QueueAction (entity : EntityWithCommand) : M unit :=
  emit (Go (Button_Action entity)).

(** *** Publication *)

Definition publishAutoDiscoveryConfigs (appConf : Config) (entityList : list Entity) : M unit :=
  emit (Log "Publishing auto-discovery configs for %d entities..."
            [AInt (Z.of_nat (length entityList))]);;
  forRange (λ i ety,
    match json_Marshal env (GetDiscoveryConfig ety) with
    | Err err =>
        emit (Log "Error marshaling discovery config for entity %d: %v"
                  [AInt (Z.of_nat i); AErr err])
    | Ok configJson =>
        let topic := GetDiscoveryTopic ety in
        token ← issue (Publish topic 1 true configJson);
        err ← wait token;
        match err with
        | Some e => emit (Log "Error publishing discovery config to %q: %v" [AStr topic; AErr e])
        | None => debugLog appConf "Published discovery config to %q" [AStr topic]
        end
    end) 0%nat entityList;;
  emit (Log "Auto-discovery configs published successfully" []).

Definition publishAvailability (appConf : Config) (entityList : list Entity) : M unit :=
  emit (Log "Publishing availability for %d entities..."
            [AInt (Z.of_nat (length entityList))]);;
  forRange (λ _ ety,
    let availability := Availability_ (GetDiscoveryConfig ety) in
    let payload := PayloadAvailable availability in
    token ← issue (Publish (Topic availability) 1 true payload);
    err ← wait token;
    match err with
    | Some e => emit (Log "Error publishing availability to %q: %v"
                          [AStr (Topic availability); AErr e])
    | None => debugLog appConf "Published availability to %q" [AStr (Topic availability)]
    end) 0%nat entityList;;
  emit (Log "Availability messages published successfully" []).

(** The type switch of [publishSensorStates]. *)
Fixpoint binarySensors (entityList : list Entity) : list BinarySensor :=
  match entityList with
  | [] => []
  | EBinarySensor v :: rest => v :: binarySensors rest
  | EButton _ :: rest => binarySensors rest
  end.

Definition publishSensorStates (appConf : Config) (entityList : list Entity) : M unit :=
  let sensors := binarySensors entityList in
  if Nat.eqb (length sensors) 0 then
    debugLog appConf "No binary sensors to publish" []
  else
    emit (Log "Publishing states for %d binary sensors..."
              [AInt (Z.of_nat (length sensors))]);;
    forRange (λ _ sensor,
      let topic := StateTopic (Sensor_DiscoveryConfig sensor) in
      let payload := PayloadOn (Sensor_DiscoveryConfig sensor) in
      token ← issue (Publish topic 1 true payload);
      err ← wait token;
      match err with
      | Some e => emit (Log "Error publishing sensor state to %q: %v" [AStr topic; AErr e])
      | None => debugLog appConf "Published sensor state to %q" [AStr topic]
      end) 0%nat sensors;;
    emit (Log "Sensor states published successfully" []).

(** *** Command dispatch *)

(** The loop of the handler: the first entity whose command topic is the
    message's topic has its action queued and the loop stops; the result is
    the variable [matched]. *)
Fixpoint dispatch (topic : string) (entitiesWithCommands : list EntityWithCommand) : M bool :=
  match entitiesWithCommands with
  | [] => mret false
  | entity :: rest =>
      if String.eqb (CommandTopic (Button_DiscoveryConfig entity)) topic then
        emit (Log "Executing command for topic %q" [AStr topic]);;
        QueueAction entity;;
        mret true
      else dispatch topic rest
  end.

(** The message handler; [messageCount] is the variable the closure
    captured, passed in and returned. *)
Definition handler (entitiesWithCommands : list EntityWithCommand)
    (messageCount : Z) (msg : Message) : M Z :=
  let messageCount := wrapInt (messageCount + 1) in
  let topic := MsgTopic msg in
  let payload := MsgPayload msg in
  emit (Log "Received message #%d on topic %q: %q"
            [AInt messageCount; AStr topic; AStr payload]);;
  matched ← dispatch topic entitiesWithCommands;
  (if negb matched
   then emit (Log "Warning: Received message on unhandled topic %q" [AStr topic])
   else mret tt);;
  mret messageCount.

(** The loop that fills [filters]. *)
Fixpoint addFilters (appConf : Config) (entitiesWithCommands : list EntityWithCommand)
    (filters : gmap string Z) : M (gmap string Z) :=
  match entitiesWithCommands with
  | [] => mret filters
  | ety :: rest =>
      let topic := CommandTopic (Button_DiscoveryConfig ety) in
      let filters := <[topic := 1]> filters in
      debugLog appConf "Subscribing to topic: %s" [AStr topic];;
      addFilters appConf rest filters
  end.

Definition subscribeToCommandTopics (appConf : Config)
    (entitiesWithCommands : list EntityWithCommand) : M unit :=
  if Nat.eqb (length entitiesWithCommands) 0 then
    emit (Log "No command topics to subscribe to" [])
  else
    emit (Log "Will subscribe to %d command topic(s)"
              [AInt (Z.of_nat (length entitiesWithCommands))]);;
    filters ← addFilters appConf entitiesWithCommands ∅;
    token ← issue (SubscribeMultiple filters entitiesWithCommands);
    err ← wait token;
    match err with
    | Some e => emit (Log "Failed to subscribe to command topics: %v" [AErr e])
    | None =>
        emit (Log "✓ Ready to receive commands" []);;
        debugLog appConf "Successfully subscribed to %d topics"
                 [AInt (Z.of_nat (length entitiesWithCommands))]
    end.

(** *** Connection lifecycle *)

Definition clientOptions (appConf : Config) : ClientOptions :=
  let clientId := "pc2mqtt-" +:+ DeviceName appConf in
  let broker := "tcp://" +:+ Host (Mqtt appConf) +:+ ":" +:+ pretty (Port (Mqtt appConf)) in
  let availability := GetDeviceAvailability appConf in
  {| Broker := broker;
     ClientID := clientId;
     OptUsername := Username (Mqtt appConf);
     OptPassword := Password (Mqtt appConf);
     CleanSession := true;
     AutoReconnect := true;
     ConnectRetry := true;
     ConnectRetryInterval := 5 * 1000;
     MaxReconnectInterval := 5 * 1000;
     KeepAlive := 60 * 1000;
     PingTimeout := 10 * 1000;
     WillTopic := Topic availability;
     WillPayload := PayloadNotAvailable availability;
     WillQos := 1;
     WillRetained := true |}.

Definition createClient (appConf : Config) : M unit :=
  emit (Log "Creating MQTT client with ID %q for broker %q"
            [AStr (ClientID (clientOptions appConf)); AStr (Broker (clientOptions appConf))]);;
  emit (NewClient (clientOptions appConf));;
  emit (Log "MQTT client created successfully" []).

(** The goroutine started by the on-connect handler. *)
Definition postConnect (appConf : Config) : M unit :=
  let entityList := GetEntities rt appConf in
  let entitiesWithCommands := FilterEntitiesWithCommands entityList in
  done ← readInitialConnectionDone;
  (if negb done then
     publishAutoDiscoveryConfigs appConf entityList;;
     setInitialConnectionDone true
   else mret tt);;
  publishAvailability appConf entityList;;
  publishSensorStates appConf entityList;;
  subscribeToCommandTopics appConf entitiesWithCommands.

(** The on-connect handler followed at once by the goroutine it starts, run
    to its end.  The source starts that goroutine with [go] (line 267) and
    returns: this is the schedule in which nothing else runs before the
    goroutine ends.  The handler as it is written, with the goroutine as a
    thread of its own, is [onConnectCallback] with [postConnectStep]
    below. *)
Definition onConnect (appConf : Config) : M unit :=
  emit (Log "Connected to %q:%d" [AStr (Host (Mqtt appConf)); AInt (Port (Mqtt appConf))]);;
  trySendEstablished;;
  postConnect appConf.

Definition onConnectionLost (err : string) : M unit :=
  emit (Log "⚠ Connection lost: %v" [AErr err]);;
  trySendLost.

Definition onReconnecting : M unit :=
  emit (Log "Attempting to reconnect to MQTT broker..." []).

Definition publishOfflineStatus (appConf : Config) : M unit :=
  emit (Log "Publishing offline status before shutdown..." []);;
  let availability := GetDeviceAvailability appConf in
  let payload := PayloadNotAvailable availability in
  token ← issue (Publish (Topic availability) 1 true payload);
  completed ← waitTimeout token (2 * 1000);
  match (if completed : bool then tokenError env token else None) with
  | Some e => emit (Log "Failed to publish offline status: %v" [AErr e])
  | None => emit (Log "Offline status published successfully" [])
  end;;
  emit (Sleep 500).

(** The goroutine of [main] that receives from [sigChan]. *)
Definition signalHandler (appConf : Config) (sig : Signal) : M unit :=
  emit (Log "Received signal %v, shutting down gracefully..." [AStr (signalName sig)]);;
  publishOfflineStatus appConf;;
  emit (Disconnect 2000);;
  emit MainCancel;;
  osExit 0.

(** The [select] of [main]: a value already in the channel is taken;
    otherwise the environment decides which case fires first. *)
Definition receiveEstablished : M bool :=
  λ w, if connectionEstablished w
       then (Ret true, {| connectionLost := connectionLost w;
                          connectionEstablished := false;
                          initialConnectionDone := initialConnectionDone w;
                          tokens := tokens w;
                          trace := trace w |})
       else (Ret (connectsInTime env), w).

Definition awaitConnection (timeoutMs : Z) : M bool :=
  emit (Select timeoutMs);; receiveEstablished.

(** [main] up to the point where it waits for [mainCtx.Done()]; its result
    is the configuration it runs with. *)
Definition main : M Config :=
  emit (Log "Starting application" []);;
  match LoadConfig env with
  | Err err => logFatal "%v" [AErr err]   (* log.Fatalln(err) *)
  | Ok appConf =>
      createClient appConf;;
      token ← issue Connect;
      err ← wait token;
      match err with
      | Some e => logFatal "Failed to connect to MQTT broker: %v" [AErr e]
      | None =>
          established ← awaitConnection (10 * 1000);
          (if established : bool
           then emit (Log "Initial connection established" [])
           else logFatal "Timeout waiting for initial MQTT connection" []);;
          let entityList := GetEntities rt appConf in
          let entitiesWithCommands := FilterEntitiesWithCommands entityList in
          emit (Log "Loaded %d entities (%d with commands)"
                    [AInt (Z.of_nat (length entityList));
                     AInt (Z.of_nat (length entitiesWithCommands))]);;
          mret appConf
      end
  end.

End Main.

(** ** Reading a run *)

Definition run {A} (m : M A) (w : World) : Outcome A * World := m w.

(** The trace a computation adds to the empty world. *)
Definition traceOf {A} (m : M A) : list Event := trace (snd (m initialWorld)).

(** The publishes and subscriptions of a trace: the calls that reach the
    broker. *)
Definition isTransportCall (ev : Event) : bool :=
  match ev with
  | Publish _ _ _ _ | SubscribeMultiple _ _ => true
  | _ => false
  end.

Definition transportCalls (evs : list Event) : list Event :=
  List.filter isTransportCall evs.

(** [w] after [n] more tokens and the events [evs]. *)
Definition extend (w : World) (n : nat) (evs : list Event) : World :=
  {| connectionLost := connectionLost w;
     connectionEstablished := connectionEstablished w;
     initialConnectionDone := initialConnectionDone w;
     tokens := n + tokens w;
     trace := trace w ++ evs |}.

(** ** The topic templates of the specification *)

Definition discoveryTemplate (prefix component deviceId deviceName suffix : string) : string :=
  prefix +:+ "/" +:+ component +:+ "/" +:+ deviceId +:+ "/" +:+ deviceName
    +:+ "_" +:+ suffix +:+ "/config".

Definition stateTemplate (deviceName component suffix : string) : string :=
  deviceName +:+ "/" +:+ component +:+ "/" +:+ suffix +:+ "/state".

Definition commandTemplate (deviceName component suffix : string) : string :=
  deviceName +:+ "/" +:+ component +:+ "/" +:+ suffix +:+ "/command".

(** ** The calls a connection event is expected to make *)

(** One retained QoS-1 publish of the marshalled discovery config per
    entity, to the entity's discovery topic; an entity whose config does not
    marshal is skipped. *)
Definition discoveryCall (env : Environment) (ety : Entity) : list Event :=
  match json_Marshal env (GetDiscoveryConfig ety) with
  | Ok configJson => [Publish (GetDiscoveryTopic ety) 1 true configJson]
  | Err _ => []
  end.

Definition discoveryCalls (env : Environment) (entityList : list Entity) : list Event :=
  concat (map (discoveryCall env) entityList).

(** One retained QoS-1 publish of the "available" payload per entity, to the
    availability topic in the entity's discovery config. *)
Definition availabilityCall (ety : Entity) : list Event :=
  let availability := Availability_ (GetDiscoveryConfig ety) in
  [Publish (Topic availability) 1 true (PayloadAvailable availability)].

Definition availabilityCalls (entityList : list Entity) : list Event :=
  concat (map availabilityCall entityList).

(** One retained QoS-1 publish of the "on" payload per binary sensor, to its
    state topic. *)
Definition sensorStateCall (sensor : BinarySensor) : list Event :=
  [Publish (StateTopic (Sensor_DiscoveryConfig sensor)) 1 true
           (PayloadOn (Sensor_DiscoveryConfig sensor))].

Definition sensorStateCalls (entityList : list Entity) : list Event :=
  concat (map sensorStateCall (binarySensors entityList)).

(** The filter map of the batched subscription: every command topic at
    QoS 1. *)
Definition commandFilters (entitiesWithCommands : list EntityWithCommand)
    (filters : gmap string Z) : gmap string Z :=
  foldl (λ m ety, <[CommandTopic (Button_DiscoveryConfig ety) := 1]> m)
        filters entitiesWithCommands.

Definition subscribeCalls (entitiesWithCommands : list EntityWithCommand) : list Event :=
  match entitiesWithCommands with
  | [] => []
  | _ => [SubscribeMultiple (commandFilters entitiesWithCommands ∅) entitiesWithCommands]
  end.

(** What every connection event sends, the first and the later ones. *)
Definition connectionCalls (rt : Runtime) (appConf : Config) : list Event :=
  let entityList := GetEntities rt appConf in
  availabilityCalls entityList ++ sensorStateCalls entityList
    ++ subscribeCalls (FilterEntitiesWithCommands entityList).

(** A publish to the discovery topic of one of the entities. *)
Definition isDiscoveryPublish (entityList : list Entity) (ev : Event) : Prop :=
  match ev with
  | Publish topic _ _ _ => ∃ ety, ety ∈ entityList ∧ topic = GetDiscoveryTopic ety
  | _ => False
  end.

(** The last character of a string. *)
Fixpoint lastChar (s : string) : option Ascii.ascii :=
  match s with
  | EmptyString => None
  | String c EmptyString => Some c
  | String _ rest => lastChar rest
  end.

(** [runs m P calls]: from every world [m] returns a value satisfying [P],
    leaves the package variables alone and sends [calls] to the broker. *)
Definition runs {A} (m : M A) (P : A → Prop) (calls : list Event) : Prop :=
  ∀ w, ∃ a n evs,
    run m w = (Ret a, extend w n evs) ∧ P a ∧ transportCalls evs = calls.

(** The command topic of an entity with a command. *)
Definition commandTopicOf (entity : EntityWithCommand) : string :=
  CommandTopic (Button_DiscoveryConfig entity).

(** Every call a connection event sends to the broker is at QoS 1. *)
Definition atQos1 (ev : Event) : Prop :=
  match ev with
  | Publish _ qos _ _ => qos = 1
  | SubscribeMultiple filters _ => map_Forall (λ _ qos, qos = 1) filters
  | _ => True
  end.

(** The line [publishOfflineStatus] logs once the bounded wait is over. *)
Definition offlineStatusLine (env : Environment) (token : nat) : Event :=
  match (if completesInTime env token then tokenError env token else None) with
  | Some e => Log "Failed to publish offline status: %v" [AErr e]
  | None => Log "Offline status published successfully" []
  end.

(** What [main] has done when the connect token completes. *)
Definition startupTrace (appConf : Config) : list Event :=
  [ Log "Starting application" [];
    Log "Creating MQTT client with ID %q for broker %q"
        [AStr (ClientID (clientOptions appConf)); AStr (Broker (clientOptions appConf))];
    NewClient (clientOptions appConf);
    Log "MQTT client created successfully" [];
    Connect;
    Wait ].

(** No event of the list ends the process. *)
Definition neverExits (evs : list Event) : Prop :=
  Forall (λ ev, ∀ code, ev ≠ Exit code) evs.

(** ** Sample inputs *)

Definition officePc (deviceId : string) (debug : bool) : Config :=
  {| DeviceId := deviceId;
     DeviceName := "office-pc";
     DebugMode := debug;
     Mqtt := {| AutoDiscoveryPrefix := "homeassistant";
                Host := "broker.local";
                Port := 1883;
                Username := "ha";
                Password := "secret" |} |}.

Definition linuxHost : Runtime := {| GOOS := "linux"; GOARCH := "amd64" |}.
Definition plan9Host : Runtime := {| GOOS := "plan9"; GOARCH := "amd64" |}.

(** A broker that acknowledges everything in time. *)
Definition calmEnv (loaded : result Config) : Environment :=
  {| json_Marshal := λ c, Ok ("{" +:+ UniqueId c +:+ "}");
     tokenError := λ _, None;
     completesInTime := λ _, true;
     startError := λ _, None;
     LoadConfig := loaded;
     connectsInTime := true |}.

(** A broker whose tokens all end with an error and never in time, on a host
    that cannot start commands, and no connection signal before the timer. *)
Definition roughEnv (loaded : result Config) : Environment :=
  {| json_Marshal := λ c, Ok ("{" +:+ UniqueId c +:+ "}");
     tokenError := λ _, Some "connection refused";
     completesInTime := λ _, false;
     startError := λ _, Some "exec: not found";
     LoadConfig := loaded;
     connectsInTime := false |}.

(** ** Further readings of the code *)

(** The component segment of an entity's topics. *)
Definition component (ety : Entity) : string :=
  match ety with
  | EBinarySensor _ => "binary_sensor"
  | EButton _ => "button"
  end.

(** The three callbacks [createClient] registers, named by the event of the
    client that triggers them. *)
Inductive LifecycleEvent :=
| ClientConnected
| ClientConnectionLost (err : string)
| ClientReconnecting.

Definition handleLifecycle (rt : Runtime) (env : Environment) (appConf : Config)
    (ev : LifecycleEvent) : M unit :=
  match ev with
  | ClientConnected => onConnect rt env appConf
  | ClientConnectionLost err => onConnectionLost err
  | ClientReconnecting => onReconnecting
  end.

(** The callbacks for a sequence of client events, every on-connect with its
    goroutine run to the end before the next callback: the schedule
    [serialTicks] of the goroutines below. *)
Fixpoint lifecycle (rt : Runtime) (env : Environment) (appConf : Config)
    (evs : list LifecycleEvent) : M unit :=
  match evs with
  | [] => mret tt
  | ev :: rest => handleLifecycle rt env appConf ev;; lifecycle rt env appConf rest
  end.

Definition isConnected (ev : LifecycleEvent) : bool :=
  match ev with ClientConnected => true | _ => false end.

(** The handler called on the messages of [msgs] in turn, the captured
    variable [messageCount] carried from one call to the next. *)
Fixpoint handleMessages (entitiesWithCommands : list EntityWithCommand)
    (messageCount : Z) (msgs : list Message) : M Z :=
  match msgs with
  | [] => mret messageCount
  | msg :: rest =>
      count ← handler entitiesWithCommands messageCount msg;
      handleMessages entitiesWithCommands count rest
  end.

(** The first entity of the list whose command topic is [topic]. *)
Definition firstWithTopic (topic : string)
    (entitiesWithCommands : list EntityWithCommand) : option EntityWithCommand :=
  List.find (λ entity, String.eqb (commandTopicOf entity) topic) entitiesWithCommands.

(** The actions queued, the commands started and the lines logged in a
    trace. *)
Definition queuedActions (evs : list Event) : list Action :=
  omap (λ ev, match ev with Go a => Some a | _ => None end) evs.

Definition startedCommands (evs : list Event) : list system.Cmd :=
  omap (λ ev, match ev with Start cmd => Some cmd | _ => None end) evs.

Definition loggedFormats (evs : list Event) : list string :=
  omap (λ ev, match ev with Log format _ => Some format | _ => None end) evs.

(** A call to the broker that is retained (for a publish) and at QoS 1. *)
Definition retainedAtQos1 (ev : Event) : Prop :=
  match ev with
  | Publish _ qos retained _ => qos = 1 ∧ retained = true
  | SubscribeMultiple filters _ => map_Forall (λ _ qos, qos = 1) filters
  | _ => True
  end.

(** The topic of a publish. *)
Definition publishedTopic (ev : Event) : option string :=
  match ev with Publish topic _ _ _ => Some topic | _ => None end.

(** The filters of a subscription. *)
Definition subscribedFilters (ev : Event) : option (gmap string Z) :=
  match ev with SubscribeMultiple filters _ => Some filters | _ => None end.

(** What the handler adds to the trace for one message. *)
Definition handlerTrace (entitiesWithCommands : list EntityWithCommand)
    (messageCount : Z) (msg : Message) : list Event :=
  Log "Received message #%d on topic %q: %q"
      [AInt (wrapInt (messageCount + 1)); AStr (MsgTopic msg); AStr (MsgPayload msg)]
  :: match firstWithTopic (MsgTopic msg) entitiesWithCommands with
     | Some entity => [Log "Executing command for topic %q" [AStr (MsgTopic msg)];
                       Go (Button_Action entity)]
     | None => [Log "Warning: Received message on unhandled topic %q"
                    [AStr (MsgTopic msg)]]
     end.

(** One run of the process from start to a termination signal: the
    callbacks for the client events [evs], every post-connect goroutine run
    to its end before the next callback, and the signal goroutine after the
    last of them.  It is the schedule [serialTicks evs 0 ++ shutdownTicks sig]
    of the goroutines below; the source allows the other schedules too. *)
Definition processRun (rt : Runtime) (env : Environment) (appConf : Config)
    (evs : list LifecycleEvent) (sig : Signal) : M unit :=
  lifecycle rt env appConf evs;; signalHandler env appConf sig.

(** The calls that reach the broker over such a run. *)
Definition processCalls (rt : Runtime) (env : Environment) (appConf : Config)
    (evs : list LifecycleEvent) : list Event :=
  (if existsb isConnected evs then discoveryCalls env (GetEntities rt appConf) else [])
  ++ concat (replicate (length (List.filter isConnected evs)) (connectionCalls rt appConf))
  ++ [Publish (Topic (GetDeviceAvailability appConf)) 1 true "offline"].

(** A publish whose topic does not end in "d". *)
Definition offCommandTopics (ev : Event) : Prop :=
  match ev with
  | Publish topic _ _ _ => lastChar topic ≠ Some "d"%char
  | _ => True
  end.

(** The command a button's action asks the platform for. *)
Definition platformCommand (rt : Runtime) (a : Action) : option system.Cmd :=
  match a with
  | ShutdownAction =>
      match system.GetShutdownCommand rt with Ok cmd => Some cmd | Err _ => None end
  | RebootAction =>
      match system.GetRebootCommand rt with Ok cmd => Some cmd | Err _ => None end
  | TestAction => None
  end.

(** ** Goroutines and their interleaving *)

(** The body of the on-connect callback itself (lines 257-264): the line,
    then the non-blocking send.  The goroutine it starts at line 267 is a
    thread of its own, [postConnectStep]. *)
Definition onConnectCallback (appConf : Config) : M unit :=
  emit (Log "Connected to %q:%d" [AStr (Host (Mqtt appConf)); AInt (Port (Mqtt appConf))]);;
  trySendEstablished.

(** Where a post-connect goroutine stands: before the test of
    [initialConnectionDone] (line 271), before the discovery publishes
    (line 273), before the assignment to the flag (line 274), before the
    three calls of lines 277-279, or at its end. *)
Inductive PostConnectPc :=
| AtCheck
| AtDiscovery
| AtSetFlag
| AtPublish
| AtEnd.

(** One phase of a post-connect goroutine.  The scheduler may switch to
    another goroutine between two phases; the result of the test at line 271
    is kept in the program counter. *)
Definition postConnectStep (rt : Runtime) (env : Environment) (appConf : Config)
    (pc : PostConnectPc) : M PostConnectPc :=
  let entityList := GetEntities rt appConf in
  let entitiesWithCommands := FilterEntitiesWithCommands entityList in
  match pc with
  | AtCheck =>
      done ← readInitialConnectionDone;
      mret (if done : bool then AtPublish else AtDiscovery)
  | AtDiscovery =>
      publishAutoDiscoveryConfigs env appConf entityList;;
      mret AtSetFlag
  | AtSetFlag =>
      setInitialConnectionDone true;;
      mret AtPublish
  | AtPublish =>
      publishAvailability env appConf entityList;;
      publishSensorStates env appConf entityList;;
      subscribeToCommandTopics env appConf entitiesWithCommands;;
      mret AtEnd
  | AtEnd => mret AtEnd
  end.

(** Where the signal goroutine of [main] stands: blocked on [sigChan], with
    a signal received, waiting for the token of the offline publish, before
    the sleep, or before the disconnect. *)
Inductive SignalPc :=
| SigBlocked
| SigReceived (sig : Signal)
| SigWaitToken (token : nat)
| SigSleep
| SigDisconnect.

(** One phase of the signal goroutine (lines 85-90 with
    [publishOfflineStatus] unfolded); the phases end at its blocking
    calls. *)
Definition signalStep (env : Environment) (appConf : Config) (pc : SignalPc) : M SignalPc :=
  match pc with
  | SigBlocked => mret SigBlocked
  | SigReceived sig =>
      emit (Log "Received signal %v, shutting down gracefully..." [AStr (signalName sig)]);;
      emit (Log "Publishing offline status before shutdown..." []);;
      let availability := GetDeviceAvailability appConf in
      let payload := PayloadNotAvailable availability in
      token ← issue (Publish (Topic availability) 1 true payload);
      mret (SigWaitToken token)
  | SigWaitToken token =>
      completed ← waitTimeout env token (2 * 1000);
      match (if completed : bool then tokenError env token else None) with
      | Some e => emit (Log "Failed to publish offline status: %v" [AErr e])
      | None => emit (Log "Offline status published successfully" [])
      end;;
      mret SigSleep
  | SigSleep =>
      emit (Sleep 500);;
      mret SigDisconnect
  | SigDisconnect =>
      emit (Disconnect 2000);;
      emit MainCancel;;
      osExit 0
  end.

(** The process: the world, the post-connect goroutines started so far (in
    the order they were started), the signal goroutine and the exit status
    once the process has ended. *)
Record System := {
  world : World;
  goroutines : list PostConnectPc;
  signalPc : SignalPc;
  exited : option Z
}.

Definition initialSystem : System :=
  {| world := initialWorld;
     goroutines := [];
     signalPc := SigBlocked;
     exited := None |}.

(** What happens next: the client calls one of its callbacks, the
    post-connect goroutine number [i] runs one phase, a termination signal
    arrives, or the signal goroutine runs one phase. *)
Inductive Tick :=
| ClientFires (ev : LifecycleEvent)
| PostConnectRuns (i : nat)
| SignalArrives (sig : Signal)
| SignalRuns.

Definition exitCode {A} (outcome : Outcome A) : option Z :=
  match outcome with
  | Ret _ => None
  | Exited code => Some code
  end.

(** The callback of a client event, without the goroutine it may start. *)
Definition callback (appConf : Config) (ev : LifecycleEvent) : M unit :=
  match ev with
  | ClientConnected => onConnectCallback appConf
  | ClientConnectionLost err => onConnectionLost err
  | ClientReconnecting => onReconnecting
  end.

Definition tick (rt : Runtime) (env : Environment) (appConf : Config)
    (t : Tick) (s : System) : System :=
  match exited s with
  | Some _ => s
  | None =>
      match t with
      | ClientFires ev =>
          let result := run (callback appConf ev) (world s) in
          {| world := snd result;
             goroutines := goroutines s ++ (if isConnected ev then [AtCheck] else []);
             signalPc := signalPc s;
             exited := exitCode (fst result) |}
      | PostConnectRuns i =>
          match goroutines s !! i with
          | None => s
          | Some pc =>
              let result := run (postConnectStep rt env appConf pc) (world s) in
              {| world := snd result;
                 goroutines := match fst result with
                               | Ret pc' => <[i := pc']> (goroutines s)
                               | Exited _ => goroutines s
                               end;
                 signalPc := signalPc s;
                 exited := exitCode (fst result) |}
          end
      | SignalArrives sig =>
          match signalPc s with
          | SigBlocked =>
              {| world := world s;
                 goroutines := goroutines s;
                 signalPc := SigReceived sig;
                 exited := exited s |}
          | _ => s
          end
      | SignalRuns =>
          let result := run (signalStep env appConf (signalPc s)) (world s) in
          {| world := snd result;
             goroutines := goroutines s;
             signalPc := match fst result with
                         | Ret pc' => pc'
                         | Exited _ => signalPc s
                         end;
             exited := exitCode (fst result) |}
      end
  end.

(** A schedule, run from left to right. *)
Definition runTicks (rt : Runtime) (env : Environment) (appConf : Config)
    (ticks : list Tick) (s : System) : System :=
  foldl (λ s t, tick rt env appConf t s) s ticks.

(** The schedule without overlap for a sequence of client events: each
    post-connect goroutine runs its phases to the end right after the
    callback that started it; [k] is the number of goroutines started
    before. *)
Fixpoint serialTicks (evs : list LifecycleEvent) (k : nat) : list Tick :=
  match evs with
  | [] => []
  | ClientConnected :: rest =>
      ClientFires ClientConnected :: replicate 4 (PostConnectRuns k)
        ++ serialTicks rest (S k)
  | ev :: rest => ClientFires ev :: serialTicks rest k
  end.

(** The signal goroutine from the arrival of a signal to its end. *)
Definition shutdownTicks (sig : Signal) : list Tick :=
  SignalArrives sig :: replicate 4 SignalRuns.

(** A schedule with overlap: the connection is lost and comes back while the
    goroutine of the first connection has passed the test of line 271 and
    not yet reached line 274; both goroutines then run to their end. *)
Definition overlappingTicks (err : string) : list Tick :=
  [ ClientFires ClientConnected; PostConnectRuns 0;
    ClientFires (ClientConnectionLost err); ClientFires ClientReconnecting;
    ClientFires ClientConnected; PostConnectRuns 1 ]
  ++ replicate 3 (PostConnectRuns 0) ++ replicate 3 (PostConnectRuns 1).




(** What the process has sent so far, the flag, the goroutines and the
    signal goroutine of a process that has not ended. *)
Definition stands (s : System) (calls : list Event) (flag : bool)
    (pool : list PostConnectPc) (sig : SignalPc) : Prop :=
  transportCalls (trace (world s)) = calls
  ∧ initialConnectionDone (world s) = flag
  ∧ goroutines s = pool
  ∧ signalPc s = sig
  ∧ exited s = None.

(** The blocks of calls a single step of a schedule can send: nothing, the
    discovery publishes, the per-connection calls, or the offline publish. *)
Definition stepCalls (rt : Runtime) (env : Environment) (appConf : Config)
    : list (list Event) :=
  [ [];
    discoveryCalls env (GetEntities rt appConf);
    connectionCalls rt appConf;
    [Publish (Topic (GetDeviceAvailability appConf)) 1 true
             (PayloadNotAvailable (GetDeviceAvailability appConf))] ].

(** * Properties *)

(** ** Strings *)

Lemma string_length_app (s t : string) :
  String.length (s +:+ t) = (String.length s + String.length t)%nat.
Proof.
  induction s as [|c s IH]; [reflexivity|].
  change (String.length (String c s +:+ t)) with (S (String.length (s +:+ t))).
  by rewrite IH.
Qed.

Lemma string_app_nonempty (s t : string) : t ≠ "" → s +:+ t ≠ "".
Proof. intros Ht. destruct s; [done|discriminate]. Qed.

Lemma lastChar_cons (c : Ascii.ascii) (t : string) :
  t ≠ "" → lastChar (String c t) = lastChar t.
Proof. by destruct t. Qed.

Lemma lastChar_app (s t : string) : t ≠ "" → lastChar (s +:+ t) = lastChar t.
Proof.
  intros Ht. induction s as [|c s IH]; [reflexivity|].
  change (String c s +:+ t) with (String c (s +:+ t)).
  rewrite lastChar_cons; [done|]. by apply string_app_nonempty.
Qed.

(** ** The registry *)

Lemma GetEntities_buttons (rt : Runtime) (appConf : Config) (b : Button) :
  EButton b ∈ GetEntities rt appConf →
  b = shutdownButton rt appConf ∨ b = rebootButton rt appConf
  ∨ (DebugMode appConf = true ∧ b = testButton rt appConf).
Proof.
  unfold GetEntities. destruct (DebugMode appConf); cbn; intros Hin;
    repeat (apply elem_of_cons in Hin as [Hin|Hin]; [simplify_eq; eauto|]);
    by apply elem_of_nil in Hin.
Qed.

Lemma GetEntities_sensors (rt : Runtime) (appConf : Config) (s : BinarySensor) :
  EBinarySensor s ∈ GetEntities rt appConf → s = powerSensor rt appConf.
Proof.
  unfold GetEntities. destruct (DebugMode appConf); cbn; intros Hin;
    repeat (apply elem_of_cons in Hin as [Hin|Hin]; [by simplify_eq|]);
    by apply elem_of_nil in Hin.
Qed.

(** C2: for every configuration [GetEntities] returns, in this order, the
    power binary sensor, the shutdown button and the reboot button, followed,
    exactly when the debug flag is set, by one more button whose action only
    writes a log line; so its length is 3 without the flag and 4 with it. *)
Theorem C2_GetEntities_fixed_order (rt : Runtime) (appConf : Config) :
  GetEntities rt appConf =
    [ EBinarySensor (powerSensor rt appConf);
      EButton (shutdownButton rt appConf);
      EButton (rebootButton rt appConf) ]
    ++ (if DebugMode appConf then [EButton (testButton rt appConf)] else [])
  ∧ Name (Sensor_DiscoveryConfig (powerSensor rt appConf)) = "Power"
  ∧ Button_Action (shutdownButton rt appConf) = ShutdownAction
  ∧ Button_Action (rebootButton rt appConf) = RebootAction
  ∧ Button_Action (testButton rt appConf) = TestAction
  ∧ (∀ env w, run (runAction rt env TestAction) w
              = (Ret tt, extend w 0 [Log "Test button pressed" []]))
  ∧ length (GetEntities rt appConf) = (if DebugMode appConf then 4 else 3)%nat.
Proof.
  unfold GetEntities. destruct (DebugMode appConf); repeat split.
Qed.

(** C3, as stated, fails: the state topic of the power sensor is not
    [{deviceName}/{component}/{suffix}/state] for any component and suffix. *)
Lemma C3_sensor_state_topic_off_template :
  ∃ ety, ety ∈ GetEntities linuxHost (officePc "4f1c" false)
    ∧ ∀ component suffix,
        StateTopic (GetDiscoveryConfig ety)
        ≠ stateTemplate (DeviceName (officePc "4f1c" false)) component suffix.
Proof.
  exists (EBinarySensor (powerSensor linuxHost (officePc "4f1c" false))).
  split; [apply list_elem_of_here|].
  intros component suffix Heq.
  apply (f_equal String.length) in Heq.
  unfold stateTemplate in Heq. cbn in Heq.
  rewrite !string_length_app in Heq. cbn in Heq. lia.
Qed.

(** C3, amended: every button of [GetEntities] has the discovery topic
    [{prefix}/button/{deviceId}/{deviceName}_button_{suffix}/config] and the
    state and command topics [{deviceName}/button/{suffix}/state] and
    [.../command], for a suffix among shutdown, reboot and test; the power
    sensor has the discovery topic
    [{prefix}/binary_sensor/{deviceId}/{deviceName}_sensor_power/config], the
    state topic [{deviceName}/state] and an empty command topic; with device
    name "office-pc" and prefix "homeassistant" the shutdown button has the
    two topics of the scenario. *)
Theorem C3_topic_templates (rt : Runtime) (appConf : Config) :
  let prefix := AutoDiscoveryPrefix (Mqtt appConf) in
  let deviceId := DeviceId appConf in
  let deviceName := DeviceName appConf in
  (∀ b, EButton b ∈ GetEntities rt appConf →
     ∃ suffix, suffix ∈ ["shutdown"; "reboot"; "test"]
       ∧ Button_DiscoveryTopic b
         = discoveryTemplate prefix "button" deviceId deviceName ("button_" +:+ suffix)
       ∧ StateTopic (Button_DiscoveryConfig b) = stateTemplate deviceName "button" suffix
       ∧ CommandTopic (Button_DiscoveryConfig b) = commandTemplate deviceName "button" suffix)
  ∧ (∀ s, EBinarySensor s ∈ GetEntities rt appConf →
       Sensor_DiscoveryTopic s
         = discoveryTemplate prefix "binary_sensor" deviceId deviceName "sensor_power"
       ∧ StateTopic (Sensor_DiscoveryConfig s) = deviceName +:+ "/state"
       ∧ CommandTopic (Sensor_DiscoveryConfig s) = "")
  ∧ (deviceName = "office-pc" → prefix = "homeassistant" →
       CommandTopic (Button_DiscoveryConfig (shutdownButton rt appConf))
         = "office-pc/button/shutdown/command"
       ∧ Button_DiscoveryTopic (shutdownButton rt appConf)
         = "homeassistant/button/" +:+ deviceId +:+ "/office-pc_button_shutdown/config").
Proof.
  intros prefix deviceId deviceName. split; [|split].
  - intros b [-> | [-> | [_ ->]]]%GetEntities_buttons.
    + exists "shutdown". split; [set_solver|]. by repeat split.
    + exists "reboot". split; [set_solver|]. by repeat split.
    + exists "test". split; [set_solver|]. by repeat split.
  - intros s ->%GetEntities_sensors. by repeat split.
  - intros Hname Hprefix. cbn. fold deviceName prefix deviceId.
    rewrite Hname, Hprefix. by split.
Qed.

Lemma C3_topic_templates_witness :
  CommandTopic (Button_DiscoveryConfig (shutdownButton linuxHost (officePc "4f1c" false)))
    = "office-pc/button/shutdown/command"
  ∧ Button_DiscoveryTopic (shutdownButton linuxHost (officePc "4f1c" false))
    = "homeassistant/button/4f1c/office-pc_button_shutdown/config"
  ∧ StateTopic (Sensor_DiscoveryConfig (powerSensor linuxHost (officePc "4f1c" false)))
    = "office-pc/state".
Proof.
  pose proof (C3_topic_templates linuxHost (officePc "4f1c" false)) as (_ & Hs & Hex).
  destruct (Hex eq_refl eq_refl) as [Hcmd Hdisc].
  destruct (Hs (powerSensor linuxHost (officePc "4f1c" false))) as (_ & Hsensor & _).
  { apply list_elem_of_here. }
  split; [exact Hcmd | split; [exact Hdisc | exact Hsensor]].
Defined.

(** ** Running computations *)

Lemma run_bind {A B} (m : M A) (k : A → M B) (w w' : World) (a : A) :
  run m w = (Ret a, w') → run (m ≫= k) w = run (k a) w'.
Proof. unfold run, mbind, M_bind. by intros ->. Qed.

Lemma run_bind_assoc {A B C} (m : M A) (k : A → M B) (k' : B → M C) (w : World) :
  run ((m ≫= k) ≫= k') w = run (m ≫= λ a, k a ≫= k') w.
Proof. unfold run, mbind, M_bind. by destruct (m w) as [[a|c] w']. Qed.

(** Run the leading steps of a sequence, as far as their results compute;
    the fields of the world reached are reduced after every step. *)
Ltac run_steps :=
  repeat (rewrite run_bind_assoc
          || (erewrite run_bind; [|reflexivity];
              cbn [connectionLost connectionEstablished initialConnectionDone
                   tokens trace])).

(** Close a goal [run m w = (r, w')] once [m] is a single computed step. *)
Ltac run_done :=
  unfold run, extend, osExit, emit, issue, mret, M_ret; cbn;
  rewrite <- ?app_assoc; reflexivity.

Lemma extend_extend (w : World) (n m : nat) (evs evs' : list Event) :
  extend (extend w n evs) m evs' = extend w (m + n) (evs ++ evs').
Proof. unfold extend; cbn. f_equal; [lia | by rewrite app_assoc]. Qed.

Lemma extend_nil (w : World) : extend w 0 [] = w.
Proof. destruct w. unfold extend; cbn. by rewrite app_nil_r. Qed.

Lemma transportCalls_app (evs evs' : list Event) :
  transportCalls (evs ++ evs') = transportCalls evs ++ transportCalls evs'.
Proof. apply List.filter_app. Qed.

Lemma runs_ret {A} (a : A) (P : A → Prop) : P a → runs (mret a) P [].
Proof. intros Ha w. exists a, 0%nat, []. by rewrite extend_nil. Qed.

Lemma runs_bind {A B} (m : M A) (k : A → M B) (P : A → Prop) (Q : B → Prop)
    (calls calls' : list Event) :
  runs m P calls → (∀ a, P a → runs (k a) Q calls') →
  runs (m ≫= k) Q (calls ++ calls').
Proof.
  intros Hm Hk w.
  destruct (Hm w) as (a & n & evs & Hrun & Ha & Hcalls).
  destruct (Hk a Ha (extend w n evs)) as (b & n' & evs' & Hrun' & Hb & Hcalls').
  exists b, (n' + n)%nat, (evs ++ evs').
  rewrite (run_bind _ _ _ _ _ Hrun), Hrun', extend_extend, transportCalls_app.
  by rewrite Hcalls, Hcalls'.
Qed.

Lemma runs_weaken {A} (m : M A) (P Q : A → Prop) (calls calls' : list Event) :
  runs m P calls → (∀ a, P a → Q a) → calls = calls' → runs m Q calls'.
Proof.
  intros Hm HPQ <- w. destruct (Hm w) as (a & n & evs & ? & ? & ?).
  exists a, n, evs. auto.
Qed.

Lemma runs_emit (ev : Event) :
  isTransportCall ev = false → runs (emit ev) (λ _, True) [].
Proof.
  intros Hev w. exists tt, 0%nat, [ev]. repeat split.
  unfold transportCalls; cbn. by rewrite Hev.
Qed.

Lemma runs_issue (ev : Event) :
  isTransportCall ev = true → runs (issue ev) (λ _, True) [ev].
Proof.
  intros Hev w. exists (tokens w), 1%nat, [ev]. repeat split.
  unfold transportCalls; cbn. by rewrite Hev.
Qed.

Lemma runs_wait (env : Environment) (tok : nat) :
  runs (wait env tok) (λ _, True) [].
Proof. intros w. exists (tokenError env tok), 0%nat, [Wait]. by repeat split. Qed.

Lemma runs_debugLog (appConf : Config) (format : string) (args : list Arg) :
  runs (debugLog appConf format args) (λ _, True) [].
Proof.
  unfold debugLog. destruct (DebugMode appConf).
  - by apply runs_emit.
  - by apply runs_ret.
Qed.

Lemma runs_forRange {A} (body : nat → A → M unit) (call : A → list Event)
    (l : list A) :
  (∀ i x, runs (body i x) (λ _, True) (call x)) →
  ∀ i, runs (forRange body i l) (λ _, True) (concat (map call l)).
Proof.
  intros Hbody. induction l as [|x l IH]; intros i; cbn [forRange map concat].
  - by apply runs_ret.
  - apply runs_bind with (P := λ _, True); [apply Hbody | intros _ _; apply IH].
Qed.

(** A publish whose token is waited for and whose result is only logged. *)
Lemma runs_publish (env : Environment) (appConf : Config)
    (topic payload format format' : string) (args : string → list Arg) (args' : list Arg) :
  runs (token ← issue (Publish topic 1 true payload);
        err ← wait env token;
        match err with
        | Some e => emit (Log format (args e))
        | None => debugLog appConf format' args'
        end) (λ _, True) [Publish topic 1 true payload].
Proof.
  apply (runs_bind _ _ (λ _, True) _ [_] []); [by apply runs_issue|].
  intros token _.
  apply (runs_bind _ _ (λ _, True) _ [] []); [apply runs_wait|].
  intros [e|] _; [by apply runs_emit | apply runs_debugLog].
Qed.

Lemma publishAutoDiscoveryConfigs_runs env appConf entityList :
  runs (publishAutoDiscoveryConfigs env appConf entityList) (λ _, True)
       (discoveryCalls env entityList).
Proof.
  unfold publishAutoDiscoveryConfigs.
  apply (runs_bind _ _ (λ _, True) _ [] _); [by apply runs_emit|]. intros _ _.
  eapply runs_weaken; [|done|apply app_nil_r].
  apply (runs_bind _ _ (λ _, True) _ _ []); [|intros _ _; by apply runs_emit].
  apply (runs_forRange _ (discoveryCall env)). intros i ety. unfold discoveryCall.
  destruct (json_Marshal env (GetDiscoveryConfig ety)) as [configJson|err].
  - apply (runs_publish env appConf _ _ _ _ (λ e, [AStr _; AErr e])).
  - by apply runs_emit.
Qed.

Lemma publishAvailability_runs env appConf entityList :
  runs (publishAvailability env appConf entityList) (λ _, True)
       (availabilityCalls entityList).
Proof.
  unfold publishAvailability.
  apply (runs_bind _ _ (λ _, True) _ [] _); [by apply runs_emit|]. intros _ _.
  eapply runs_weaken; [|done|apply app_nil_r].
  apply (runs_bind _ _ (λ _, True) _ _ []); [|intros _ _; by apply runs_emit].
  apply (runs_forRange _ availabilityCall). intros i ety.
  apply (runs_publish env appConf _ _ _ _ (λ e, [AStr _; AErr e])).
Qed.

Lemma publishSensorStates_runs env appConf entityList :
  runs (publishSensorStates env appConf entityList) (λ _, True)
       (sensorStateCalls entityList).
Proof.
  unfold publishSensorStates, sensorStateCalls.
  destruct (binarySensors entityList) as [|sensor sensors] eqn:Hsensors.
  - apply runs_debugLog.
  - cbn [length Nat.eqb].
    apply (runs_bind _ _ (λ _, True) _ [] _); [by apply runs_emit|]. intros _ _.
    eapply runs_weaken; [|done|apply app_nil_r].
    apply (runs_bind _ _ (λ _, True) _ _ []); [|intros _ _; by apply runs_emit].
    apply (runs_forRange _ sensorStateCall). intros i s.
    apply (runs_publish env appConf _ _ _ _ (λ e, [AStr _; AErr e])).
Qed.

Lemma addFilters_runs appConf entitiesWithCommands filters :
  runs (addFilters appConf entitiesWithCommands filters)
       (λ m, m = commandFilters entitiesWithCommands filters) [].
Proof.
  revert filters. induction entitiesWithCommands as [|ety rest IH]; intros filters.
  - by apply runs_ret.
  - cbn [addFilters commandFilters foldl].
    apply (runs_bind _ _ (λ _, True) _ [] []); [apply runs_debugLog|].
    intros _ _. apply IH.
Qed.

Lemma subscribeToCommandTopics_runs env appConf entitiesWithCommands :
  runs (subscribeToCommandTopics env appConf entitiesWithCommands) (λ _, True)
       (subscribeCalls entitiesWithCommands).
Proof.
  unfold subscribeToCommandTopics, subscribeCalls.
  destruct entitiesWithCommands as [|ety rest]; [by apply runs_emit|].
  set (l := ety :: rest). cbn [length Nat.eqb].
  apply (runs_bind _ _ (λ _, True) _ [] _); [by apply runs_emit|]. intros _ _.
  apply (runs_bind _ _ _ _ [] _ (addFilters_runs appConf l ∅)). intros filters ->.
  apply (runs_bind _ _ (λ _, True) _ [_] []); [by apply runs_issue|]. intros token _.
  apply (runs_bind _ _ (λ _, True) _ [] []); [apply runs_wait|].
  intros [e|] _; [by apply runs_emit|].
  apply (runs_bind _ _ (λ _, True) _ [] []); [by apply runs_emit|].
  intros _ _. apply runs_debugLog.
Qed.

Lemma perConnection_runs rt env appConf :
  runs (publishAvailability env appConf (GetEntities rt appConf);;
        publishSensorStates env appConf (GetEntities rt appConf);;
        subscribeToCommandTopics env appConf
          (FilterEntitiesWithCommands (GetEntities rt appConf)))
       (λ _, True) (connectionCalls rt appConf).
Proof.
  unfold connectionCalls.
  apply (runs_bind _ _ (λ _, True)); [apply publishAvailability_runs|]. intros _ _.
  apply (runs_bind _ _ (λ _, True)); [apply publishSensorStates_runs|]. intros _ _.
  apply subscribeToCommandTopics_runs.
Qed.

(** One connection event: the discovery configs are published when the flag
    [initialConnectionDone] is still unset, and only then. *)
Lemma onConnect_run rt env appConf (w : World) :
  ∃ w' evs,
    run (onConnect rt env appConf) w = (Ret tt, w')
    ∧ trace w' = trace w ++ evs
    ∧ initialConnectionDone w' = true
    ∧ transportCalls evs
      = (if initialConnectionDone w then []
         else discoveryCalls env (GetEntities rt appConf))
        ++ connectionCalls rt appConf.
Proof.
  unfold onConnect, postConnect.
  erewrite run_bind; [|reflexivity].
  erewrite run_bind; [|reflexivity].
  erewrite run_bind; [|reflexivity].
  cbn [initialConnectionDone extend].
  destruct (initialConnectionDone w) eqn:Hflag; cbn [negb].
  - erewrite run_bind; [|reflexivity].
    match goal with |- context [run _ ?w0] => set (w1 := w0) end.
    destruct (perConnection_runs rt env appConf w1) as ([] & n & evs & -> & _ & Hcalls).
    eexists _, (_ :: evs). split; [reflexivity|]. split; [|split].
    + cbn. by rewrite <- app_assoc.
    + reflexivity.
    + exact Hcalls.
  - match goal with |- context [run _ ?w0] => set (w1 := w0) end.
    destruct (publishAutoDiscoveryConfigs_runs env appConf (GetEntities rt appConf) w1)
      as ([] & n & evs & Hrun & _ & Hcalls).
    erewrite run_bind; [|erewrite run_bind; [reflexivity | exact Hrun]].
    match goal with |- context [run _ ?w0] => set (w2 := w0) end.
    destruct (perConnection_runs rt env appConf w2) as ([] & n' & evs' & -> & _ & Hcalls').
    eexists _, (_ :: evs ++ evs'). split; [reflexivity|]. split; [|split].
    + cbn. by rewrite <- !app_assoc.
    + reflexivity.
    + change (transportCalls (evs ++ evs') = discoveryCalls env (GetEntities rt appConf)
                                            ++ connectionCalls rt appConf).
      by rewrite transportCalls_app, Hcalls, Hcalls'.
Qed.

Ltac last_char :=
  repeat (rewrite lastChar_app by (repeat apply string_app_nonempty; discriminate));
  reflexivity.

Lemma discoveryTopic_lastChar rt appConf ety :
  ety ∈ GetEntities rt appConf → lastChar (GetDiscoveryTopic ety) = Some "g"%char.
Proof.
  destruct ety as [s|b].
  - intros ->%GetEntities_sensors. cbn. last_char.
  - intros [-> | [-> | [_ ->]]]%GetEntities_buttons; cbn; last_char.
Qed.

Lemma availabilityTopic_lastChar rt appConf ety :
  ety ∈ GetEntities rt appConf →
  lastChar (Topic (Availability_ (GetDiscoveryConfig ety))) ≠ Some "g"%char.
Proof.
  destruct ety as [s|b].
  - intros ->%GetEntities_sensors. cbn.
    rewrite lastChar_app by discriminate. discriminate.
  - intros [-> | [-> | [_ ->]]]%GetEntities_buttons; cbn;
      rewrite lastChar_app by discriminate; discriminate.
Qed.

Lemma availabilityCalls_no_discovery rt appConf (l : list Entity) :
  (∀ ety, ety ∈ l → ety ∈ GetEntities rt appConf) →
  Forall (λ ev, ¬ isDiscoveryPublish (GetEntities rt appConf) ev) (availabilityCalls l).
Proof.
  induction l as [|ety l IH]; intros Hl; [constructor|].
  unfold availabilityCalls. cbn [map concat availabilityCall app]. constructor.
  - intros (ety' & Hin & Heq).
    apply (availabilityTopic_lastChar rt appConf ety); [apply Hl, list_elem_of_here|].
    rewrite Heq. by apply (discoveryTopic_lastChar rt appConf).
  - apply IH. intros ety' Hin. by apply Hl, list_elem_of_further.
Qed.

Lemma sensorStateCalls_GetEntities rt appConf :
  sensorStateCalls (GetEntities rt appConf)
  = [Publish (DeviceName appConf +:+ "/state") 1 true "online"].
Proof. unfold GetEntities. by destruct (DebugMode appConf). Qed.

Lemma subscribeCalls_GetEntities rt appConf :
  subscribeCalls (FilterEntitiesWithCommands (GetEntities rt appConf))
  = [SubscribeMultiple
       (commandFilters (FilterEntitiesWithCommands (GetEntities rt appConf)) ∅)
       (FilterEntitiesWithCommands (GetEntities rt appConf))].
Proof. unfold GetEntities. by destruct (DebugMode appConf). Qed.

Lemma connectionCalls_no_discovery rt appConf :
  Forall (λ ev, ¬ isDiscoveryPublish (GetEntities rt appConf) ev)
         (connectionCalls rt appConf).
Proof.
  unfold connectionCalls.
  rewrite sensorStateCalls_GetEntities, subscribeCalls_GetEntities.
  apply Forall_app. split; [by apply availabilityCalls_no_discovery|].
  repeat constructor.
  - intros (ety & Hin & Heq). apply discoveryTopic_lastChar in Hin.
    rewrite <- Heq, lastChar_app in Hin by discriminate. discriminate.
  - intros [].
Qed.

(** ** Availability *)

Lemma availabilityCalls_GetEntities rt appConf :
  availabilityCalls (GetEntities rt appConf)
  = Publish (DeviceName appConf +:+ "/binary_sensor/availability") 1 true "online"
    :: replicate (if DebugMode appConf then 3 else 2)
                 (Publish (DeviceName appConf +:+ "/state") 1 true "online").
Proof. unfold GetEntities. by destruct (DebugMode appConf). Qed.

(** C4, as stated, fails: the power sensor's discovery config does not carry
    the host availability but one of its own, with another topic, and the
    availability publish of a connection event goes to both topics. *)
Lemma C4_sensor_has_its_own_availability :
  (∃ ety, ety ∈ GetEntities linuxHost (officePc "4f1c" false)
     ∧ Availability_ (GetDiscoveryConfig ety)
       ≠ GetDeviceAvailability (officePc "4f1c" false))
  ∧ transportCalls
      (traceOf (publishAvailability (calmEnv (Ok (officePc "4f1c" false)))
                  (officePc "4f1c" false)
                  (GetEntities linuxHost (officePc "4f1c" false))))
    = [ Publish "office-pc/binary_sensor/availability" 1 true "online";
        Publish "office-pc/state" 1 true "online";
        Publish "office-pc/state" 1 true "online" ].
Proof.
  split; [|reflexivity].
  exists (EBinarySensor (powerSensor linuxHost (officePc "4f1c" false))).
  split; [apply list_elem_of_here|]. intros Heq. discriminate Heq.
Qed.

(** C4, amended: every button of [GetEntities] references the host
    availability of [GetDeviceAvailability]; the power sensor carries an
    availability of its own, with topic
    [{deviceName}/binary_sensor/availability] and the same "online" and
    "offline" payloads; the availability publish of a connection event sends
    "online" once per entity to the availability topic of that entity, that
    is once to the sensor's topic and then once per button to the host
    topic. *)
Theorem C4_availability_channels rt env appConf :
  let host := GetDeviceAvailability appConf in
  (∀ b, EButton b ∈ GetEntities rt appConf →
     Availability_ (Button_DiscoveryConfig b) = host)
  ∧ (∀ s, EBinarySensor s ∈ GetEntities rt appConf →
       Availability_ (Sensor_DiscoveryConfig s)
       = {| Topic := DeviceName appConf +:+ "/binary_sensor/availability";
            PayloadAvailable := "online";
            PayloadNotAvailable := "offline" |})
  ∧ PayloadAvailable host = "online" ∧ PayloadNotAvailable host = "offline"
  ∧ runs (publishAvailability env appConf (GetEntities rt appConf)) (λ _, True)
         (map (λ ety, Publish (Topic (Availability_ (GetDiscoveryConfig ety))) 1 true "online")
              (GetEntities rt appConf))
  ∧ map (λ ety, Topic (Availability_ (GetDiscoveryConfig ety))) (GetEntities rt appConf)
    = (DeviceName appConf +:+ "/binary_sensor/availability")
      :: replicate (if DebugMode appConf then 3 else 2) (Topic host).
Proof.
  intros host. split; [|split; [|split; [|split; [|split]]]].
  - by intros b [-> | [-> | [_ ->]]]%GetEntities_buttons.
  - by intros s ->%GetEntities_sensors.
  - reflexivity.
  - reflexivity.
  - eapply runs_weaken; [apply publishAvailability_runs | done |].
    unfold GetEntities. by destruct (DebugMode appConf).
  - unfold GetEntities. by destruct (DebugMode appConf).
Qed.

Lemma C4_availability_channels_witness :
  let appConf := officePc "4f1c" true in
  Availability_ (Button_DiscoveryConfig (testButton linuxHost appConf))
    = GetDeviceAvailability appConf
  ∧ Topic (Availability_ (Sensor_DiscoveryConfig (powerSensor linuxHost appConf)))
    = "office-pc/binary_sensor/availability".
Proof.
  intros appConf.
  destruct (C4_availability_channels linuxHost (calmEnv (Ok appConf)) appConf)
    as (Hbuttons & Hsensor & _).
  split.
  - apply Hbuttons. unfold GetEntities. cbn.
    do 3 apply list_elem_of_further. apply list_elem_of_here.
  - rewrite (Hsensor (powerSensor linuxHost appConf)); [reflexivity|].
    apply list_elem_of_here.
Defined.

(** C9, at the failing input: in debug mode the discovery configs of the
    power sensor and of the shutdown and reboot buttons carry [Qos] 1, the
    one of the test button carries [Qos] 0, its literal setting no [Qos]. *)
Theorem C9_debug_test_button_qos_zero :
  map (λ ety, (Name (GetDiscoveryConfig ety), Qos (GetDiscoveryConfig ety)))
      (GetEntities linuxHost (officePc "4f1c" true))
  = [("Power", 1); ("Shutdown", 1); ("Reboot", 1); ("Test", 0)].
Proof. reflexivity. Qed.

Lemma commandFilters_qos (l : list EntityWithCommand) (filters : gmap string Z) :
  map_Forall (λ _ qos, qos = 1) filters →
  map_Forall (λ _ qos, qos = 1) (commandFilters l filters).
Proof.
  revert filters. induction l as [|ety l IH]; intros filters Hf; [done|].
  cbn [commandFilters foldl]. apply IH. by apply map_Forall_insert_2.
Qed.

Lemma connection_calls_at_qos1 rt env appConf :
  Forall atQos1 (discoveryCalls env (GetEntities rt appConf) ++ connectionCalls rt appConf).
Proof.
  apply Forall_app. split.
  - unfold discoveryCalls. induction (GetEntities rt appConf) as [|ety l IH]; [constructor|].
    cbn [map concat]. apply Forall_app. split; [|exact IH].
    unfold discoveryCall. destruct (json_Marshal _ _); by repeat constructor.
  - unfold connectionCalls.
    rewrite sensorStateCalls_GetEntities, subscribeCalls_GetEntities.
    apply Forall_app. split.
    + unfold availabilityCalls. induction (GetEntities rt appConf) as [|ety l IH];
        by repeat constructor.
    + repeat constructor. apply commandFilters_qos, map_Forall_empty.
Qed.

Lemma publishOfflineStatus_runs env appConf :
  runs (publishOfflineStatus env appConf) (λ _, True)
       [Publish (Topic (GetDeviceAvailability appConf)) 1 true
                (PayloadNotAvailable (GetDeviceAvailability appConf))].
Proof.
  unfold publishOfflineStatus.
  apply (runs_bind _ _ (λ _, True) _ [] _); [by apply runs_emit|]. intros _ _.
  apply (runs_bind _ _ (λ _, True) _ [_] []); [by apply runs_issue|]. intros token _.
  apply (runs_bind _ _ (λ _, True) _ [] []).
  { unfold waitTimeout.
    apply (runs_bind _ _ (λ _, True) _ [] []); [by apply runs_emit|].
    intros _ _. by apply runs_ret. }
  intros completed _.
  apply (runs_bind _ _ (λ _, True) _ [] []); [|intros _ _; by apply runs_emit].
  destruct (if completed then tokenError env token else None); by apply runs_emit.
Qed.

(** C10: the state topic of the power sensor is the host availability topic
    [{deviceName}/state] of [GetDeviceAvailability], and its on and off
    payloads are the availability payloads "online" and "offline"; so the
    sensor-state publish of a connection event is the publish of the
    "available" payload to the host availability topic, which the
    availability publish of the same event sends too, and the "offline"
    publish at shutdown is a publish of the sensor's off payload to the
    sensor's state topic. *)
Theorem C10_sensor_state_is_host_availability rt env appConf :
  let sensor := Sensor_DiscoveryConfig (powerSensor rt appConf) in
  let host := GetDeviceAvailability appConf in
  (∀ s, EBinarySensor s ∈ GetEntities rt appConf ↔ s = powerSensor rt appConf)
  ∧ StateTopic sensor = Topic host
  ∧ Topic host = DeviceName appConf +:+ "/state"
  ∧ PayloadOn sensor = "online" ∧ PayloadAvailable host = "online"
  ∧ PayloadOff sensor = "offline" ∧ PayloadNotAvailable host = "offline"
  ∧ runs (publishSensorStates env appConf (GetEntities rt appConf)) (λ _, True)
         [Publish (Topic host) 1 true (PayloadAvailable host)]
  ∧ (∃ calls,
       runs (publishAvailability env appConf (GetEntities rt appConf)) (λ _, True) calls
       ∧ Publish (Topic host) 1 true (PayloadAvailable host) ∈ calls)
  ∧ runs (publishOfflineStatus env appConf) (λ _, True)
         [Publish (StateTopic sensor) 1 true (PayloadOff sensor)].
Proof.
  intros sensor host. repeat split.
  - apply GetEntities_sensors.
  - intros ->. unfold GetEntities. destruct (DebugMode appConf); apply list_elem_of_here.
  - eapply runs_weaken; [apply publishSensorStates_runs | done |].
    apply sensorStateCalls_GetEntities.
  - eexists. split; [apply publishAvailability_runs|].
    rewrite availabilityCalls_GetEntities.
    apply list_elem_of_further. destruct (DebugMode appConf); apply list_elem_of_here.
  - apply publishOfflineStatus_runs.
Qed.

(** ** Command dispatch *)

Lemma dispatch_no_match (topic : string) (l : list EntityWithCommand) (w : World) :
  (∀ entity, entity ∈ l → commandTopicOf entity ≠ topic) →
  run (dispatch topic l) w = (Ret false, w).
Proof.
  induction l as [|entity l IH]; intros Hl; [reflexivity|].
  cbn [dispatch].
  destruct (String.eqb_spec (CommandTopic (Button_DiscoveryConfig entity)) topic) as [Heq|_].
  - by destruct (Hl entity (list_elem_of_here _ _)).
  - apply IH. intros entity' Hin. by apply Hl, list_elem_of_further.
Qed.

Lemma dispatch_first_match (topic : string) (pre post : list EntityWithCommand)
    (entity : EntityWithCommand) (w : World) :
  (∀ b, b ∈ pre → commandTopicOf b ≠ topic) →
  commandTopicOf entity = topic →
  run (dispatch topic (pre ++ entity :: post)) w
  = (Ret true, extend w 0 [Log "Executing command for topic %q" [AStr topic];
                           Go (Button_Action entity)]).
Proof.
  intros Hpre Hentity. induction pre as [|b pre IH]; cbn [app dispatch].
  - unfold commandTopicOf in Hentity. rewrite Hentity, String.eqb_refl.
    run_steps. run_done.
  - destruct (String.eqb_spec (CommandTopic (Button_DiscoveryConfig b)) topic) as [Heq|_].
    + by destruct (Hpre b (list_elem_of_here _ _)).
    + apply IH. intros b' Hin. by apply Hpre, list_elem_of_further.
Qed.

Lemma first_match_exists (topic : string) (l : list EntityWithCommand) :
  (∃ entity, entity ∈ l ∧ commandTopicOf entity = topic) →
  ∃ pre entity post,
    l = pre ++ entity :: post
    ∧ commandTopicOf entity = topic
    ∧ ∀ b, b ∈ pre → commandTopicOf b ≠ topic.
Proof.
  induction l as [|b l IH]; intros (entity & Hin & Heq).
  - by apply elem_of_nil in Hin.
  - destruct (decide (commandTopicOf b = topic)) as [Hb|Hb].
    + exists [], b, l. split; [done|]. split; [done|]. intros b' Hb'.
      by apply elem_of_nil in Hb'.
    + apply elem_of_cons in Hin as [->|Hin]; [done|].
      destruct IH as (pre & entity' & post & -> & Htopic & Hpre); [by exists entity|].
      exists (b :: pre), entity', post. split; [done|]. split; [done|].
      intros b' [->|Hb']%elem_of_cons; auto.
Qed.

(** C5: for every inbound message, when some entity of the list has the
    message's topic as its command topic, the handler queues the action of
    the first such entity in list order, once, and nothing else, whatever the
    payload; when no entity has it, the handler queues no action and logs the
    warning. *)
Theorem C5_command_dispatch (entitiesWithCommands : list EntityWithCommand)
    (messageCount : Z) (msg : Message) (w : World) :
  let topic := MsgTopic msg in
  let count := wrapInt (messageCount + 1) in
  let received := Log "Received message #%d on topic %q: %q"
                      [AInt count; AStr topic; AStr (MsgPayload msg)] in
  ((∃ entity, entity ∈ entitiesWithCommands ∧ commandTopicOf entity = topic) →
     ∃ pre entity post,
       entitiesWithCommands = pre ++ entity :: post
       ∧ commandTopicOf entity = topic
       ∧ (∀ b, b ∈ pre → commandTopicOf b ≠ topic)
       ∧ run (handler entitiesWithCommands messageCount msg) w
         = (Ret count, extend w 0 [received;
                                   Log "Executing command for topic %q" [AStr topic];
                                   Go (Button_Action entity)]))
  ∧ ((∀ entity, entity ∈ entitiesWithCommands → commandTopicOf entity ≠ topic) →
       run (handler entitiesWithCommands messageCount msg) w
       = (Ret count, extend w 0 [received;
                                 Log "Warning: Received message on unhandled topic %q"
                                     [AStr topic]])).
Proof.
  intros topic count received. split.
  - intros (pre & entity & post & -> & Htopic & Hpre)%first_match_exists.
    exists pre, entity, post. repeat (split; [done|]).
    unfold handler. run_steps.
    erewrite run_bind; [|by apply dispatch_first_match].
    run_steps. run_done.
  - intros Hnone. unfold handler. run_steps.
    erewrite run_bind; [|by apply dispatch_no_match].
    run_steps. run_done.
Qed.

Lemma C5_command_dispatch_witness :
  let appConf := officePc "4f1c" true in
  let buttons := FilterEntitiesWithCommands (GetEntities linuxHost appConf) in
  (∃ action,
     run (handler buttons 41
            {| MsgTopic := "office-pc/button/reboot/command"; MsgPayload := "PRESS" |})
         initialWorld
     = (Ret 42, extend initialWorld 0
                  [Log "Received message #%d on topic %q: %q"
                       [AInt 42; AStr "office-pc/button/reboot/command"; AStr "PRESS"];
                   Log "Executing command for topic %q"
                       [AStr "office-pc/button/reboot/command"];
                   Go action]))
  ∧ run (handler buttons 41
           {| MsgTopic := "office-pc/button/sleep/command"; MsgPayload := "PRESS" |})
        initialWorld
    = (Ret 42, extend initialWorld 0
                 [Log "Received message #%d on topic %q: %q"
                      [AInt 42; AStr "office-pc/button/sleep/command"; AStr "PRESS"];
                  Log "Warning: Received message on unhandled topic %q"
                      [AStr "office-pc/button/sleep/command"]]).
Proof.
  intros appConf buttons. split.
  - destruct (proj1 (C5_command_dispatch buttons 41
                       {| MsgTopic := "office-pc/button/reboot/command";
                          MsgPayload := "PRESS" |} initialWorld))
      as (pre & entity & post & _ & _ & _ & Hrun).
    { exists (rebootButton linuxHost appConf). split; [|reflexivity].
      apply list_elem_of_further, list_elem_of_here. }
    exists (Button_Action entity). exact Hrun.
  - apply (proj2 (C5_command_dispatch buttons 41
                    {| MsgTopic := "office-pc/button/sleep/command";
                       MsgPayload := "PRESS" |} initialWorld)).
    intros entity Hin.
    repeat (apply elem_of_cons in Hin as [->|Hin]; [discriminate|]).
    by apply elem_of_nil in Hin.
Defined.

(** ** Shutdown and start-up *)

(** C6: on a termination signal, in whatever state, the process publishes
    the "offline" payload (retained, QoS 1) to the host availability topic,
    waits for that token for at most 2 seconds, then calls [Disconnect] with
    a quiesce time of 2 seconds, and exits with status 0; it does so whether
    the publish succeeded, failed or did not complete in time. *)
Theorem C6_shutdown_sequence env appConf (sig : Signal) (w : World) :
  run (signalHandler env appConf sig) w
  = (Exited 0,
     extend w 1
       [ Log "Received signal %v, shutting down gracefully..." [AStr (signalName sig)];
         Log "Publishing offline status before shutdown..." [];
         Publish (Topic (GetDeviceAvailability appConf)) 1 true "offline";
         WaitTimeout 2000;
         offlineStatusLine env (tokens w);
         Sleep 500;
         Disconnect 2000;
         MainCancel;
         Exit 0 ]).
Proof.
  unfold signalHandler, publishOfflineStatus, waitTimeout, offlineStatusLine.
  run_steps. cbn [tokens].
  destruct (if completesInTime env (tokens w) then tokenError env (tokens w) else None);
    run_steps; run_done.
Qed.

(** C7, as stated, fails: when the connect token ends with an error the
    process exits fatally right away, without waiting for the "connection
    established" signal or for the 10 seconds. *)
Lemma C7_connect_error_exits_without_waiting :
  run (main linuxHost (roughEnv (Ok (officePc "4f1c" false)))) initialWorld
  = (Exited 1,
     extend initialWorld 1
       (startupTrace (officePc "4f1c" false)
        ++ [Log "Failed to connect to MQTT broker: %v" [AErr "connection refused"];
            Exit 1]))
  ∧ ∀ timeoutMs,
      Select timeoutMs
      ∉ trace (snd (run (main linuxHost (roughEnv (Ok (officePc "4f1c" false))))
                        initialWorld)).
Proof.
  split; [reflexivity|].
  intros timeoutMs Hin. cbn in Hin.
  repeat (apply elem_of_cons in Hin as [Hin|Hin]; [discriminate Hin|]).
  by apply elem_of_nil in Hin.
Qed.

(** C7, amended: at start-up, with a configuration loaded, the process
    issues the connect call and waits for its token; if the token carries an
    error the process exits fatally at once; otherwise it blocks until the
    "connection established" signal is received or 10 seconds elapse, in the
    timeout case it exits fatally, and only in the signal case does start-up
    proceed. *)
Theorem C7_initial_connection rt env appConf :
  LoadConfig env = Ok appConf →
  run (main rt env) initialWorld
  = match tokenError env 0 with
    | Some e =>
        (Exited 1,
         extend initialWorld 1
           (startupTrace appConf
            ++ [Log "Failed to connect to MQTT broker: %v" [AErr e]; Exit 1]))
    | None =>
        if connectsInTime env then
          (Ret appConf,
           extend initialWorld 1
             (startupTrace appConf
              ++ [Select 10000;
                  Log "Initial connection established" [];
                  Log "Loaded %d entities (%d with commands)"
                      [AInt (Z.of_nat (length (GetEntities rt appConf)));
                       AInt (Z.of_nat (length (FilterEntitiesWithCommands
                                                 (GetEntities rt appConf))))]]))
        else
          (Exited 1,
           extend initialWorld 1
             (startupTrace appConf
              ++ [Select 10000;
                  Log "Timeout waiting for initial MQTT connection" [];
                  Exit 1]))
    end.
Proof.
  intros Hload. unfold main. rewrite Hload.
  unfold createClient, wait, awaitConnection, logFatal. run_steps.
  cbn [tokens initialWorld].
  destruct (tokenError env 0) as [e|]; [reflexivity|].
  run_steps.
  unfold run, mbind, M_bind, receiveEstablished. cbn.
  by destruct (connectsInTime env).
Qed.

Lemma C7_initial_connection_witness :
  let appConf := officePc "4f1c" false in
  fst (run (main linuxHost (calmEnv (Ok appConf))) initialWorld) = Ret appConf
  ∧ Select 10000 ∈ trace (snd (run (main linuxHost (calmEnv (Ok appConf))) initialWorld)).
Proof.
  intros appConf.
  rewrite (C7_initial_connection linuxHost (calmEnv (Ok appConf)) appConf eq_refl).
  split; [reflexivity|]. cbn.
  do 6 apply list_elem_of_further. apply list_elem_of_here.
Defined.

(** ** Platform commands *)

Lemma supported_dec (rt : Runtime) :
  system.supported rt ∨
  (String.eqb (GOOS rt) system.WINDOWS = false
   ∧ String.eqb (GOOS rt) system.MACOS = false
   ∧ String.eqb (GOOS rt) system.LINUX = false ∧ ¬ system.supported rt).
Proof.
  unfold system.supported.
  destruct (String.eqb_spec (GOOS rt) system.WINDOWS); [by auto|].
  destruct (String.eqb_spec (GOOS rt) system.MACOS); [by auto|].
  destruct (String.eqb_spec (GOOS rt) system.LINUX); [by auto|].
  right. repeat split. by intros [?|[?|?]].
Qed.

(** C8: [GetShutdownCommand] and [GetRebootCommand] return an error exactly
    when the host OS is none of windows, darwin and linux, and a command
    otherwise; the shutdown and reboot actions, when the command cannot be
    obtained or cannot be started, log that and return; no action ever ends
    the process. *)
Theorem C8_platform_commands (rt : Runtime) :
  (is_err (system.GetShutdownCommand rt) = true ↔ ¬ system.supported rt)
  ∧ (is_err (system.GetRebootCommand rt) = true ↔ ¬ system.supported rt)
  ∧ (system.supported rt →
       ∃ shutdown reboot,
         system.GetShutdownCommand rt = Ok shutdown
         ∧ system.GetRebootCommand rt = Ok reboot)
  ∧ (∀ env w err,
       system.GetShutdownCommand rt = Err err →
       run (runAction rt env ShutdownAction) w
       = (Ret tt, extend w 0
                    [Log "Shutdown button pressed - executing system shutdown" [];
                     Log "Failed to get shutdown command: %v" [AErr err]]))
  ∧ (∀ env w cmd err,
       system.GetShutdownCommand rt = Ok cmd → startError env cmd = Some err →
       run (runAction rt env ShutdownAction) w
       = (Ret tt, extend w 0
                    [Log "Shutdown button pressed - executing system shutdown" [];
                     Start cmd;
                     Log "Failed to start shutdown command: %v" [AErr err]]))
  ∧ (∀ env w err,
       system.GetRebootCommand rt = Err err →
       run (runAction rt env RebootAction) w
       = (Ret tt, extend w 0
                    [Log "Reboot button pressed - executing system reboot" [];
                     Log "Failed to get reboot command: %v" [AErr err]]))
  ∧ (∀ env w cmd err,
       system.GetRebootCommand rt = Ok cmd → startError env cmd = Some err →
       run (runAction rt env RebootAction) w
       = (Ret tt, extend w 0
                    [Log "Reboot button pressed - executing system reboot" [];
                     Start cmd;
                     Log "Failed to start reboot command: %v" [AErr err]]))
  ∧ (∀ env w action, ∃ evs,
       run (runAction rt env action) w = (Ret tt, extend w 0 evs) ∧ neverExits evs).
Proof.
  split; [|split; [|split; [|split; [|split; [|split; [|split]]]]]].
  - unfold system.GetShutdownCommand.
    destruct (supported_dec rt) as [[H|[H|H]] | (H1 & H2 & H3 & Hno)].
    + rewrite H. cbn. split; [done|]. intros Hno. destruct Hno. by left.
    + rewrite H. cbn. split; [done|]. intros Hno. destruct Hno. by right; left.
    + rewrite H. cbn. split; [done|]. intros Hno. destruct Hno. by right; right.
    + by rewrite H1, H2, H3.
  - unfold system.GetRebootCommand.
    destruct (supported_dec rt) as [[H|[H|H]] | (H1 & H2 & H3 & Hno)].
    + rewrite H. cbn. split; [done|]. intros Hno. destruct Hno. by left.
    + rewrite H. cbn. split; [done|]. intros Hno. destruct Hno. by right; left.
    + rewrite H. cbn. split; [done|]. intros Hno. destruct Hno. by right; right.
    + by rewrite H1, H2, H3.
  - unfold system.supported, system.GetShutdownCommand, system.GetRebootCommand.
    intros [H|[H|H]]; rewrite H; cbn; eauto.
  - intros env w err Herr. unfold runAction. rewrite Herr. run_steps. run_done.
  - intros env w cmd err Hcmd Hstart. unfold runAction. rewrite Hcmd.
    run_steps. rewrite Hstart. run_done.
  - intros env w err Herr. unfold runAction. rewrite Herr. run_steps. run_done.
  - intros env w cmd err Hcmd Hstart. unfold runAction. rewrite Hcmd.
    run_steps. rewrite Hstart. run_done.
  - intros env w action. unfold runAction, neverExits.
    destruct action.
    + destruct (system.GetShutdownCommand rt) as [cmd|err].
      * destruct (startError env cmd) as [e|]; eexists;
          (split; [run_steps; run_done | by repeat constructor]).
      * eexists. split; [run_steps; run_done | by repeat constructor].
    + destruct (system.GetRebootCommand rt) as [cmd|err].
      * destruct (startError env cmd) as [e|]; eexists;
          (split; [run_steps; run_done | by repeat constructor]).
      * eexists. split; [run_steps; run_done | by repeat constructor].
    + eexists. split; [run_done | by repeat constructor].
Qed.

Lemma C8_platform_commands_witness :
  is_err (system.GetShutdownCommand plan9Host) = true
  ∧ run (runAction plan9Host (roughEnv (Ok (officePc "4f1c" false))) RebootAction) initialWorld
    = (Ret tt, extend initialWorld 0
                 [Log "Reboot button pressed - executing system reboot" [];
                  Log "Failed to get reboot command: %v"
                      [AErr "plan9 does not support reboot"]])
  ∧ run (runAction linuxHost (roughEnv (Ok (officePc "4f1c" false))) ShutdownAction) initialWorld
    = (Ret tt, extend initialWorld 0
                 [Log "Shutdown button pressed - executing system shutdown" [];
                  Start (system.Command "systemctl" ["poweroff"; "--ignore-inhibitors"]);
                  Log "Failed to start shutdown command: %v" [AErr "exec: not found"]]).
Proof.
  destruct (C8_platform_commands plan9Host) as (Hshutdown & _ & _ & _ & _ & Hreboot & _).
  destruct (C8_platform_commands linuxHost) as (_ & _ & _ & _ & Hstart & _).
  split; [|split].
  - apply Hshutdown. unfold system.supported. cbn. by intros [?|[?|?]].
  - apply Hreboot. reflexivity.
  - apply Hstart; reflexivity.
Defined.

(** * Further properties *)

Lemma string_app_cons (c : Ascii.ascii) (s t : string) :
  String c s +:+ t = String c (s +:+ t).
Proof. reflexivity. Qed.

Lemma string_app_assoc (s t u : string) : (s +:+ t) +:+ u = s +:+ (t +:+ u).
Proof.
  induction s as [|c s IH]; [reflexivity|].
  rewrite !string_app_cons. by rewrite IH.
Qed.

(** Cancel the common left parts of an equation between concatenations and
    compare what is left. *)
Ltac strings_differ H :=
  repeat (apply (inj (String.app _)) in H);
  repeat (rewrite !string_app_cons in H; injection H as H);
  try discriminate H.

(** Membership in an explicit list, one element after the other. *)
Ltac in_cases H :=
  repeat (apply elem_of_cons in H as [H|H]; [|]);
  [.. | by apply elem_of_nil in H].

Ltac nodup_strings :=
  repeat (apply NoDup_cons; split;
          [ let Hin := fresh "Hin" in
            intros Hin;
            repeat (apply elem_of_cons in Hin as [Hin|Hin];
                    [cbn in Hin; by strings_differ Hin|]);
            by apply elem_of_nil in Hin | ]);
  apply NoDup_nil_2.

(** X1: for every configuration the discovery topics of the entities of
    [GetEntities] are pairwise distinct. *)
Theorem discovery_topics_distinct rt appConf :
  NoDup (map GetDiscoveryTopic (GetEntities rt appConf)).
Proof.
  unfold GetEntities.
  destruct (DebugMode appConf); cbn [map app GetDiscoveryTopic]; nodup_strings.
Qed.

(** X2: for every configuration the unique ids of the entities of
    [GetEntities] are pairwise distinct. *)
Theorem unique_ids_distinct rt appConf :
  NoDup (map (λ ety, UniqueId (GetDiscoveryConfig ety)) (GetEntities rt appConf)).
Proof.
  unfold GetEntities.
  destruct (DebugMode appConf); cbn [map app GetDiscoveryConfig]; nodup_strings.
Qed.

(** X3: for every entity of [GetEntities] the discovery topic is
    [{prefix}/{component}/{deviceId}/{uniqueId}/config] with the entity's own
    unique id, the default entity id is [{component}.{uniqueId}], and the
    device is the one of [GetDevice], identified by the configured device
    id. *)
Theorem entity_ids_agree rt appConf (ety : Entity) :
  ety ∈ GetEntities rt appConf →
  GetDiscoveryTopic ety
    = AutoDiscoveryPrefix (Mqtt appConf) +:+ "/" +:+ component ety +:+ "/"
      +:+ DeviceId appConf +:+ "/" +:+ UniqueId (GetDiscoveryConfig ety) +:+ "/config"
  ∧ DefaultEntityId (GetDiscoveryConfig ety)
    = component ety +:+ "." +:+ UniqueId (GetDiscoveryConfig ety)
  ∧ Device_ (GetDiscoveryConfig ety) = GetDevice rt appConf
  ∧ Identifiers (Device_ (GetDiscoveryConfig ety)) = DeviceId appConf.
Proof.
  destruct ety as [s|b].
  - intros ->%GetEntities_sensors. cbn. by rewrite string_app_assoc.
  - intros [-> | [-> | [_ ->]]]%GetEntities_buttons; cbn; by rewrite string_app_assoc.
Qed.

Lemma entity_ids_agree_witness :
  GetDiscoveryTopic (EButton (rebootButton linuxHost (officePc "4f1c" false)))
  = "homeassistant/button/4f1c/office-pc_button_reboot/config"
  ∧ DefaultEntityId (Button_DiscoveryConfig (rebootButton linuxHost (officePc "4f1c" false)))
    = "button.office-pc_button_reboot".
Proof.
  destruct (entity_ids_agree linuxHost (officePc "4f1c" false)
              (EButton (rebootButton linuxHost (officePc "4f1c" false))))
    as (Htopic & Hid & _).
  { apply list_elem_of_further, list_elem_of_further, list_elem_of_here. }
  split; [exact Htopic | exact Hid].
Defined.

(** ** The subscription filters *)

Lemma commandFilters_lookup (l : list EntityWithCommand) (filters : gmap string Z)
    (topic : string) :
  commandFilters l filters !! topic
  = if decide (topic ∈ map commandTopicOf l) then Some 1 else filters !! topic.
Proof.
  revert filters. induction l as [|ety l IH]; intros filters.
  - cbn. case_decide as Hin; [by apply elem_of_nil in Hin|done].
  - cbn [commandFilters foldl map].
    change (foldl _ ?m l) with (commandFilters l m). rewrite IH.
    fold (commandTopicOf ety).
    destruct (decide (topic ∈ map commandTopicOf l)) as [Hin|Hnin].
    + rewrite decide_True; [done|]. by apply list_elem_of_further.
    + destruct (decide (commandTopicOf ety = topic)) as [<-|Hne].
      * rewrite lookup_insert_eq. rewrite decide_True; [done|]. apply list_elem_of_here.
      * rewrite lookup_insert_ne by done.
        rewrite decide_False; [done|]. intros [?|?]%elem_of_cons; congruence.
Qed.

Lemma commandFilters_dom (l : list EntityWithCommand) (filters : gmap string Z) :
  dom (commandFilters l filters)
  = (list_to_set (map commandTopicOf l) ∪ dom filters : gset string).
Proof.
  revert filters. induction l as [|ety l IH]; intros filters.
  - cbn. by rewrite (left_id_L ∅ (∪)).
  - cbn [commandFilters foldl map list_to_set].
    change (foldl _ ?m l) with (commandFilters l m). rewrite IH, dom_insert_L.
    fold (commandTopicOf ety).
    by rewrite (comm_L (∪) {[commandTopicOf ety]} (list_to_set _)), (assoc_L (∪)).
Qed.

(** X4: for any list of entities with commands, the filter map built by
    [subscribeToCommandTopics] maps every command topic of the list to QoS 1
    and holds no other topic; entities sharing a command topic share one
    entry, and when the command topics are pairwise distinct the map has one
    entry per entity. *)
Theorem subscription_filters_cover_command_topics
    (entitiesWithCommands : list EntityWithCommand) :
  (∀ topic, topic ∈ map commandTopicOf entitiesWithCommands →
            commandFilters entitiesWithCommands ∅ !! topic = Some 1)
  ∧ (∀ topic, topic ∉ map commandTopicOf entitiesWithCommands →
              commandFilters entitiesWithCommands ∅ !! topic = None)
  ∧ (NoDup (map commandTopicOf entitiesWithCommands) →
     size (commandFilters entitiesWithCommands ∅) = length entitiesWithCommands).
Proof.
  split; [|split].
  - intros topic Hin. rewrite commandFilters_lookup. by rewrite decide_True.
  - intros topic Hnin. rewrite commandFilters_lookup. by rewrite decide_False.
  - intros Hnodup. rewrite <- size_dom, commandFilters_dom, dom_empty_L, (right_id_L ∅ (∪)).
    rewrite size_list_to_set by done. apply length_map.
Qed.

Lemma subscription_filters_cover_command_topics_witness :
  let buttons := [ shutdownButton linuxHost (officePc "4f1c" false);
                   shutdownButton plan9Host (officePc "4f1c" true);
                   rebootButton linuxHost (officePc "4f1c" false) ] in
  commandFilters buttons ∅ !! "office-pc/button/shutdown/command" = Some 1
  ∧ commandFilters buttons ∅ !! "office-pc/button/test/command" = None
  ∧ size (commandFilters (FilterEntitiesWithCommands
                            (GetEntities linuxHost (officePc "4f1c" true))) ∅) = 3%nat.
Proof.
  intros buttons.
  destruct (subscription_filters_cover_command_topics buttons) as (Hin & Hnin & _).
  destruct (subscription_filters_cover_command_topics
              (FilterEntitiesWithCommands (GetEntities linuxHost (officePc "4f1c" true))))
    as (_ & _ & Hsize).
  split; [|split].
  - apply Hin. apply list_elem_of_here.
  - apply Hnin. intros Hin'. cbn in Hin'.
    repeat (apply elem_of_cons in Hin' as [Hin'|Hin']; [discriminate Hin'|]).
    by apply elem_of_nil in Hin'.
  - apply Hsize. cbn. nodup_strings.
Defined.

(** X5: for every configuration the command topics of the buttons of
    [GetEntities] are pairwise distinct and not empty, so the subscription
    holds one filter per button: 2, or 3 in debug mode. *)
Theorem command_topics_distinct rt appConf :
  let buttons := FilterEntitiesWithCommands (GetEntities rt appConf) in
  NoDup (map commandTopicOf buttons)
  ∧ (∀ b, b ∈ buttons → commandTopicOf b ≠ "")
  ∧ size (commandFilters buttons ∅) = (if DebugMode appConf then 3 else 2)%nat.
Proof.
  intros buttons.
  assert (NoDup (map commandTopicOf buttons)) as Hnodup.
  { unfold buttons, GetEntities.
    destruct (DebugMode appConf); cbn [map app FilterEntitiesWithCommands]; nodup_strings. }
  split; [done|]. split.
  - intros b Hb Htopic. unfold buttons, GetEntities in Hb.
    destruct (DebugMode appConf); cbn in Hb;
      repeat (apply elem_of_cons in Hb as [->|Hb];
              [by apply (string_app_nonempty (DeviceName appConf)) in Htopic|]);
      by apply elem_of_nil in Hb.
  - rewrite <- size_dom, commandFilters_dom, dom_empty_L, (right_id_L ∅ (∪)).
    rewrite size_list_to_set by done. rewrite length_map.
    unfold buttons, GetEntities. by destruct (DebugMode appConf).
Qed.

(** ** Dispatch on the entities of the registry *)

Lemma run_bind_match {A B} (m : M A) (k : A → M B) (w : World) :
  run (m ≫= k) w
  = match run m w with
    | (Ret a, w') => run (k a) w'
    | (Exited c, w') => (Exited c, w')
    end.
Proof. reflexivity. Qed.

Lemma dispatch_firstWithTopic (topic : string) (l : list EntityWithCommand) (w : World) :
  run (dispatch topic l) w
  = match firstWithTopic topic l with
    | Some entity =>
        (Ret true, extend w 0 [Log "Executing command for topic %q" [AStr topic];
                               Go (Button_Action entity)])
    | None => (Ret false, extend w 0 [])
    end.
Proof.
  induction l as [|entity l IH]; cbn [dispatch firstWithTopic List.find].
  - by rewrite extend_nil.
  - unfold commandTopicOf at 1.
    destruct (String.eqb (CommandTopic (Button_DiscoveryConfig entity)) topic).
    + run_steps. run_done.
    + apply IH.
Qed.

Lemma handler_run (l : list EntityWithCommand) (messageCount : Z) (msg : Message)
    (w : World) :
  run (handler l messageCount msg) w
  = (Ret (wrapInt (messageCount + 1)), extend w 0 (handlerTrace l messageCount msg)).
Proof.
  unfold handler, handlerTrace. run_steps.
  rewrite run_bind_match, dispatch_firstWithTopic.
  destruct (firstWithTopic (MsgTopic msg) l) as [entity|].
  - run_steps. run_done.
  - run_steps. run_done.
Qed.

Lemma wrapInt_in_range (z : Z) : (- 2 ^ 63 ≤ z < 2 ^ 63)%Z → wrapInt z = z.
Proof. intros Hz. unfold wrapInt. rewrite Z.mod_small; lia. Qed.

Lemma wrapInt_bounds (z : Z) : (- 2 ^ 63 ≤ wrapInt z < 2 ^ 63)%Z.
Proof.
  unfold wrapInt. pose proof (Z.mod_pos_bound (z + 2 ^ 63) (2 ^ 64)). lia.
Qed.

Lemma command_topics_distinct_witness :
  commandTopicOf (testButton linuxHost (officePc "4f1c" true)) ≠ ""
  ∧ size (commandFilters (FilterEntitiesWithCommands
                            (GetEntities linuxHost (officePc "4f1c" false))) ∅) = 2%nat.
Proof.
  destruct (command_topics_distinct linuxHost (officePc "4f1c" true)) as (_ & Hnonempty & _).
  destruct (command_topics_distinct linuxHost (officePc "4f1c" false)) as (_ & _ & Hsize).
  split; [|exact Hsize].
  apply Hnonempty. do 2 apply list_elem_of_further. apply list_elem_of_here.
Defined.

(** X6: the handler called on a sequence of messages, starting from a
    counter that does not overflow on the way, returns the counter advanced
    by the number of messages, queues for each message the action of the
    first entity with that command topic (none when there is none), in the
    order of the messages, and never ends the process. *)
Theorem handler_counts_messages (entitiesWithCommands : list EntityWithCommand)
    (messageCount : Z) (msgs : list Message) (w : World) :
  (0 ≤ messageCount)%Z → (messageCount + Z.of_nat (length msgs) < 2 ^ 63)%Z →
  ∃ evs,
    run (handleMessages entitiesWithCommands messageCount msgs) w
    = (Ret (messageCount + Z.of_nat (length msgs)), extend w 0 evs)
    ∧ queuedActions evs
      = omap (λ msg, Button_Action <$> firstWithTopic (MsgTopic msg) entitiesWithCommands)
             msgs
    ∧ neverExits evs.
Proof.
  revert messageCount w. induction msgs as [|msg msgs IH]; intros messageCount w Hlo Hhi.
  - exists []. cbn [handleMessages length Z.of_nat]. rewrite extend_nil, Z.add_0_r.
    split; [done|]. split; [done|]. constructor.
  - cbn [handleMessages length] in *.
    erewrite run_bind; [|apply handler_run].
    rewrite wrapInt_in_range by lia.
    destruct (IH (messageCount + 1) (extend w 0 (handlerTrace entitiesWithCommands
                                                    messageCount msg)))
      as (evs & Hrun & Hqueued & Hexits); [lia..|].
    exists (handlerTrace entitiesWithCommands messageCount msg ++ evs).
    rewrite Hrun, extend_extend. split; [do 2 f_equal; lia|]. split.
    + unfold queuedActions in *. rewrite omap_app, Hqueued.
      unfold handlerTrace.
      destruct (firstWithTopic (MsgTopic msg) entitiesWithCommands) eqn:Hfirst;
        cbn; by rewrite Hfirst.
    + apply Forall_app. split; [|done]. unfold handlerTrace.
      destruct (firstWithTopic (MsgTopic msg) entitiesWithCommands);
        by repeat constructor.
Qed.

Lemma handler_counts_messages_witness :
  let buttons := FilterEntitiesWithCommands (GetEntities linuxHost (officePc "4f1c" false)) in
  ∃ evs,
    run (handleMessages buttons 0
           [ {| MsgTopic := "office-pc/button/reboot/command"; MsgPayload := "PRESS" |};
             {| MsgTopic := "office-pc/button/test/command"; MsgPayload := "PRESS" |};
             {| MsgTopic := "office-pc/button/shutdown/command"; MsgPayload := "" |} ])
        initialWorld
    = (Ret 3, extend initialWorld 0 evs)
    ∧ queuedActions evs = [RebootAction; ShutdownAction].
Proof.
  intros buttons.
  destruct (handler_counts_messages buttons 0
              [ {| MsgTopic := "office-pc/button/reboot/command"; MsgPayload := "PRESS" |};
                {| MsgTopic := "office-pc/button/test/command"; MsgPayload := "PRESS" |};
                {| MsgTopic := "office-pc/button/shutdown/command"; MsgPayload := "" |} ]
              initialWorld) as (evs & Hrun & Hqueued & _); [lia | cbn; lia |].
  exists evs. split; [exact Hrun | exact Hqueued].
Defined.

Lemma firstWithTopic_NoDup (l : list EntityWithCommand) (b : EntityWithCommand) :
  NoDup (map commandTopicOf l) → b ∈ l → firstWithTopic (commandTopicOf b) l = Some b.
Proof.
  induction l as [|entity l IH]; intros Hnodup Hin; [by apply elem_of_nil in Hin|].
  cbn [map] in Hnodup. apply NoDup_cons in Hnodup as [Hfresh Hnodup].
  cbn [firstWithTopic List.find].
  destruct (String.eqb_spec (commandTopicOf entity) (commandTopicOf b)) as [Heq|Hne].
  - apply elem_of_cons in Hin as [->|Hin]; [done|].
    destruct Hfresh. rewrite Heq. by apply list_elem_of_fmap_2.
  - apply elem_of_cons in Hin as [->|Hin]; [done|]. by apply IH.
Qed.

Lemma buttons_topics_NoDup rt appConf :
  NoDup (map commandTopicOf (FilterEntitiesWithCommands (GetEntities rt appConf))).
Proof.
  unfold GetEntities.
  destruct (DebugMode appConf); cbn [map app FilterEntitiesWithCommands]; nodup_strings.
Qed.

(** X7: with the entities of [GetEntities], a message on the command topic
    of a button queues the action of that very button, whatever the payload;
    the shutdown, reboot and test actions belong to the command topics
    [{deviceName}/button/shutdown/command], [.../reboot/command] and
    [.../test/command]. *)
Theorem registry_dispatch rt appConf (b : EntityWithCommand) (messageCount : Z)
    (payload : string) (w : World) :
  let buttons := FilterEntitiesWithCommands (GetEntities rt appConf) in
  b ∈ buttons →
  run (handler buttons messageCount
         {| MsgTopic := commandTopicOf b; MsgPayload := payload |}) w
  = (Ret (wrapInt (messageCount + 1)),
     extend w 0
       [ Log "Received message #%d on topic %q: %q"
             [AInt (wrapInt (messageCount + 1)); AStr (commandTopicOf b); AStr payload];
         Log "Executing command for topic %q" [AStr (commandTopicOf b)];
         Go (Button_Action b) ])
  ∧ (Button_Action b = ShutdownAction
       ↔ commandTopicOf b = DeviceName appConf +:+ "/button/shutdown/command")
  ∧ (Button_Action b = RebootAction
       ↔ commandTopicOf b = DeviceName appConf +:+ "/button/reboot/command")
  ∧ (Button_Action b = TestAction
       ↔ commandTopicOf b = DeviceName appConf +:+ "/button/test/command").
Proof.
  intros buttons Hb. subst buttons. split.
  - rewrite handler_run. unfold handlerTrace. cbn [MsgTopic MsgPayload].
    by rewrite (firstWithTopic_NoDup _ _ (buttons_topics_NoDup rt appConf) Hb).
  - assert (EButton b ∈ GetEntities rt appConf) as Hin.
    { unfold GetEntities in *.
      destruct (DebugMode appConf); cbn in Hb;
        repeat (apply elem_of_cons in Hb as [->|Hb];
                [repeat first [apply list_elem_of_here | apply list_elem_of_further]|]);
        by apply elem_of_nil in Hb. }
    apply GetEntities_buttons in Hin as [-> | [-> | [_ ->]]];
      (repeat split; try done; intros H; cbn in H; try discriminate H;
       by strings_differ H).
Qed.

Lemma registry_dispatch_witness :
  run (handler (FilterEntitiesWithCommands (GetEntities linuxHost (officePc "4f1c" true))) 0
         {| MsgTopic := "office-pc/button/test/command"; MsgPayload := "anything" |})
      initialWorld
  = (Ret 1, extend initialWorld 0
              [ Log "Received message #%d on topic %q: %q"
                    [AInt 1; AStr "office-pc/button/test/command"; AStr "anything"];
                Log "Executing command for topic %q" [AStr "office-pc/button/test/command"];
                Go TestAction ]).
Proof.
  apply (registry_dispatch linuxHost (officePc "4f1c" true)
           (testButton linuxHost (officePc "4f1c" true)) 0 "anything" initialWorld).
  do 2 apply list_elem_of_further. apply list_elem_of_here.
Defined.

(** ** The client's callbacks over a whole run *)

Lemma onConnectionLost_run (err : string) (w : World) :
  ∃ w', run (onConnectionLost err) w = (Ret tt, w')
    ∧ trace w' = trace w ++ [Log "⚠ Connection lost: %v" [AErr err]]
    ∧ initialConnectionDone w' = initialConnectionDone w
    ∧ connectionLost w' = true.
Proof. eexists. split; [reflexivity|]. by repeat split. Qed.

Lemma lifecycle_run rt env appConf (evs : list LifecycleEvent) (w : World) :
  ∃ w' added,
    run (lifecycle rt env appConf evs) w = (Ret tt, w')
    ∧ trace w' = trace w ++ added
    ∧ initialConnectionDone w' = initialConnectionDone w || existsb isConnected evs
    ∧ transportCalls added
      = (if initialConnectionDone w then []
         else if existsb isConnected evs
              then discoveryCalls env (GetEntities rt appConf) else [])
        ++ concat (replicate (length (List.filter isConnected evs))
                             (connectionCalls rt appConf)).
Proof.
  revert w. induction evs as [|ev evs IH]; intros w.
  - exists w, []. cbn. rewrite app_nil_r, orb_false_r.
    by destruct (initialConnectionDone w).
  - cbn [lifecycle]. destruct ev as [|err|]; cbn [handleLifecycle existsb isConnected
                                                   List.filter length replicate concat].
    + destruct (onConnect_run rt env appConf w) as (w1 & evs1 & Hrun1 & Htrace1 & Hflag1 & Hcalls1).
      destruct (IH w1) as (w' & added & Hrun & Htrace & Hflag & Hcalls).
      exists w', (evs1 ++ added). rewrite (run_bind _ _ _ _ _ Hrun1).
      split; [exact Hrun|]. split; [by rewrite Htrace, Htrace1, app_assoc|].
      split; [by rewrite Hflag, Hflag1, orb_true_r|].
      rewrite transportCalls_app, Hcalls, Hcalls1, Hflag1. cbn [app orb].
      by rewrite <- app_assoc.
    + destruct (onConnectionLost_run err w) as (w1 & Hrun1 & Htrace1 & Hflag1 & _).
      destruct (IH w1) as (w' & added & Hrun & Htrace & Hflag & Hcalls).
      exists w', (Log "⚠ Connection lost: %v" [AErr err] :: added).
      rewrite (run_bind _ _ _ _ _ Hrun1).
      split; [exact Hrun|]. split; [by rewrite Htrace, Htrace1, <- app_assoc|].
      split; [by rewrite Hflag, Hflag1|].
      change (transportCalls (_ :: added)) with (transportCalls added).
      by rewrite Hcalls, Hflag1.
    + destruct (IH (extend w 0 [Log "Attempting to reconnect to MQTT broker..." []]))
        as (w' & added & Hrun & Htrace & Hflag & Hcalls).
      exists w', (Log "Attempting to reconnect to MQTT broker..." [] :: added).
      erewrite run_bind; [|reflexivity].
      split; [exact Hrun|]. split; [by rewrite Htrace; cbn; rewrite <- app_assoc|].
      split; [exact Hflag|].
      change (transportCalls (_ :: added)) with (transportCalls added).
      exact Hcalls.
Qed.

Lemma signalHandler_run env appConf (sig : Signal) (w : World) :
  ∃ w' added,
    run (signalHandler env appConf sig) w = (Exited 0, w')
    ∧ trace w' = trace w ++ added ++ [Exit 0]
    ∧ transportCalls added
      = [Publish (Topic (GetDeviceAvailability appConf)) 1 true "offline"].
Proof.
  unfold signalHandler. run_steps.
  match goal with |- context [run _ ?w0] => set (w1 := w0) end.
  destruct (publishOfflineStatus_runs env appConf w1) as ([] & n & evs & Hrun & _ & Hcalls).
  rewrite (run_bind _ _ _ _ _ Hrun). run_steps.
  eexists _, (Log "Received signal %v, shutting down gracefully..."
                  [AStr (signalName sig)] :: evs ++ [Disconnect 2000; MainCancel]).
  split; [reflexivity|]. split.
  - cbn. by rewrite <- !app_assoc.
  - unfold transportCalls in *. cbn [List.filter isTransportCall].
    by rewrite List.filter_app, Hcalls.
Qed.

Lemma processRun_calls rt env appConf (evs : list LifecycleEvent) (sig : Signal) :
  ∃ w added,
    run (processRun rt env appConf evs sig) initialWorld = (Exited 0, w)
    ∧ trace w = added ++ [Exit 0]
    ∧ transportCalls added = processCalls rt env appConf evs.
Proof.
  destruct (lifecycle_run rt env appConf evs initialWorld)
    as (w1 & added1 & Hrun1 & Htrace1 & _ & Hcalls1).
  destruct (signalHandler_run env appConf sig w1) as (w & added & Hrun & Htrace & Hcalls).
  exists w, (added1 ++ added). unfold processRun.
  rewrite (run_bind _ _ _ _ _ Hrun1). split; [exact Hrun|].
  split; [by rewrite Htrace, Htrace1, app_assoc|].
  rewrite transportCalls_app, Hcalls, Hcalls1. unfold processCalls.
  by rewrite <- app_assoc.
Qed.

Lemma discoveryCalls_elem env (l : list Entity) (ev : Event) :
  ev ∈ discoveryCalls env l →
  ∃ ety configJson, ety ∈ l ∧ ev = Publish (GetDiscoveryTopic ety) 1 true configJson.
Proof.
  unfold discoveryCalls. induction l as [|ety l IH]; cbn [map concat].
  - by intros ?%elem_of_nil.
  - intros [Hin|Hin]%elem_of_app.
    + unfold discoveryCall in Hin.
      destruct (json_Marshal env (GetDiscoveryConfig ety)) as [configJson|];
        [|by apply elem_of_nil in Hin].
      apply list_elem_of_singleton in Hin as ->.
      exists ety, configJson. split; [apply list_elem_of_here|done].
    + destruct (IH Hin) as (ety' & configJson & Hety & ->).
      exists ety', configJson. split; [by apply list_elem_of_further|done].
Qed.

Lemma concat_replicate_elem {A} (n : nat) (l : list A) (x : A) :
  x ∈ concat (replicate n l) → x ∈ l.
Proof.
  induction n as [|n IH]; cbn; [by intros ?%elem_of_nil|].
  intros [?|?]%elem_of_app; auto.
Qed.

Lemma processCalls_Forall rt env appConf (evs : list LifecycleEvent) (P : Event → Prop) :
  (∀ ety configJson, ety ∈ GetEntities rt appConf →
     P (Publish (GetDiscoveryTopic ety) 1 true configJson)) →
  Forall P (connectionCalls rt appConf) →
  P (Publish (Topic (GetDeviceAvailability appConf)) 1 true "offline") →
  Forall P (processCalls rt env appConf evs).
Proof.
  intros Hdiscovery Hconnection Hoffline. unfold processCalls.
  apply Forall_app. split; [|apply Forall_app; split].
  - destruct (existsb isConnected evs); [|constructor].
    apply Forall_forall. intros ev (ety & configJson & Hety & ->)%discoveryCalls_elem.
    by apply Hdiscovery.
  - apply Forall_forall. intros ev Hin%concat_replicate_elem.
    by eapply Forall_forall in Hconnection.
  - by repeat constructor.
Qed.

Lemma connectionCalls_retainedAtQos1 rt appConf :
  Forall retainedAtQos1 (connectionCalls rt appConf).
Proof.
  unfold connectionCalls.
  rewrite sensorStateCalls_GetEntities, subscribeCalls_GetEntities.
  apply Forall_app. split.
  - unfold availabilityCalls. induction (GetEntities rt appConf) as [|ety l IH];
      by repeat constructor.
  - repeat constructor. apply commandFilters_qos, map_Forall_empty.
Qed.

(** X10: over a whole run every publish is retained and at QoS 1 and every
    filter of every subscription is at QoS 1; the last will of the client is
    retained and at QoS 1 too. *)
Theorem every_call_retained_at_qos1 rt env appConf (evs : list LifecycleEvent)
    (sig : Signal) :
  Forall retainedAtQos1
         (trace (snd (run (processRun rt env appConf evs sig) initialWorld)))
  ∧ WillQos (clientOptions appConf) = 1
  ∧ WillRetained (clientOptions appConf) = true.
Proof.
  split; [|done].
  destruct (processRun_calls rt env appConf evs sig) as (w & added & -> & Htrace & Hcalls).
  cbn [snd]. rewrite Htrace.
  assert (Forall retainedAtQos1 (transportCalls added)) as Hforall.
  { rewrite Hcalls. apply processCalls_Forall.
    - by intros.
    - apply connectionCalls_retainedAtQos1.
    - done. }
  apply Forall_app. split; [|by repeat constructor].
  apply Forall_forall. intros ev Hin.
  destruct (isTransportCall ev) eqn:Hcall.
  - eapply Forall_forall in Hforall; [exact Hforall|].
    apply list_elem_of_In, List.filter_In. split; [by apply list_elem_of_In|done].
  - by destruct ev.
Qed.

Lemma commandTopic_lastChar rt appConf (b : EntityWithCommand) :
  b ∈ FilterEntitiesWithCommands (GetEntities rt appConf) →
  lastChar (commandTopicOf b) = Some "d"%char.
Proof.
  unfold GetEntities. intros Hb.
  destruct (DebugMode appConf); cbn in Hb;
    repeat (apply elem_of_cons in Hb as [->|Hb]; [cbn; last_char|]);
    by apply elem_of_nil in Hb.
Qed.

Lemma connectionCalls_offCommandTopics rt appConf :
  Forall offCommandTopics (connectionCalls rt appConf).
Proof.
  unfold connectionCalls.
  rewrite availabilityCalls_GetEntities, sensorStateCalls_GetEntities,
    subscribeCalls_GetEntities.
  assert (lastChar (DeviceName appConf +:+ "/state") ≠ Some "d"%char) as Hstate.
  { rewrite lastChar_app by discriminate. discriminate. }
  apply Forall_app. split; [apply Forall_cons; split|].
  - cbn. rewrite lastChar_app by discriminate. discriminate.
  - apply Forall_forall. by intros ev ->%elem_of_replicate_inv.
  - by repeat constructor.
Qed.

(** X11: over a whole run the process never publishes on a topic it
    subscribes to: no topic of a publish in the trace is a key of the filters
    of a subscription in the trace. *)
Theorem never_publishes_on_a_subscribed_topic rt env appConf
    (evs : list LifecycleEvent) (sig : Signal) (topic payload : string) (qos : Z)
    (retained : bool) (filters : gmap string Z) (captured : list EntityWithCommand) :
  let w := snd (run (processRun rt env appConf evs sig) initialWorld) in
  Publish topic qos retained payload ∈ trace w →
  SubscribeMultiple filters captured ∈ trace w →
  filters !! topic = None.
Proof.
  intros w. subst w.
  destruct (processRun_calls rt env appConf evs sig) as (w & added & -> & Htrace & Hcalls).
  cbn [snd]. rewrite Htrace.
  assert (∀ ev, isTransportCall ev = true → ev ∈ added ++ [Exit 0] →
                ev ∈ processCalls rt env appConf evs) as Hcall.
  { intros ev Hev [Hin|Hin]%elem_of_app.
    - rewrite <- Hcalls. apply list_elem_of_In, List.filter_In.
      split; [by apply list_elem_of_In|done].
    - apply list_elem_of_singleton in Hin as ->. discriminate Hev. }
  intros Hpub%Hcall Hsub%Hcall; [|done..].
  assert (Forall offCommandTopics (processCalls rt env appConf evs)) as Hoff.
  { apply processCalls_Forall.
    - intros ety configJson Hety. cbn.
      rewrite (discoveryTopic_lastChar rt appConf ety Hety). discriminate.
    - apply connectionCalls_offCommandTopics.
    - cbn. rewrite lastChar_app by discriminate. discriminate. }
  assert (Forall (λ ev, ∀ filters' captured', ev = SubscribeMultiple filters' captured' →
                        filters' = commandFilters
                                     (FilterEntitiesWithCommands (GetEntities rt appConf)) ∅)
                 (processCalls rt env appConf evs)) as Hfilters.
  { apply processCalls_Forall.
    - intros; discriminate.
    - unfold connectionCalls.
      rewrite availabilityCalls_GetEntities, sensorStateCalls_GetEntities,
        subscribeCalls_GetEntities.
      apply Forall_app. split; [apply Forall_cons; split|].
      * intros; discriminate.
      * apply Forall_forall. intros ev ->%elem_of_replicate_inv. intros; discriminate.
      * repeat constructor; [intros; discriminate|]. by intros ?? [= <- _].
    - intros; discriminate. }
  eapply Forall_forall in Hoff; [|exact Hpub].
  eapply Forall_forall in Hfilters; [|exact Hsub].
  rewrite (Hfilters _ _ eq_refl), commandFilters_lookup, lookup_empty.
  rewrite decide_False; [done|].
  intros (b & -> & Hb)%list_elem_of_fmap.
  cbn in Hoff. by rewrite (commandTopic_lastChar rt appConf b Hb) in Hoff.
Qed.

Lemma processCalls_in_trace rt env appConf (evs : list LifecycleEvent) (sig : Signal)
    (ev : Event) :
  ev ∈ processCalls rt env appConf evs →
  ev ∈ trace (snd (run (processRun rt env appConf evs sig) initialWorld)).
Proof.
  destruct (processRun_calls rt env appConf evs sig) as (w & added & -> & Htrace & <-).
  cbn [snd]. rewrite Htrace.
  intros [Hin _]%list_elem_of_In%List.filter_In.
  apply elem_of_app. left. by apply list_elem_of_In.
Qed.

Lemma never_publishes_on_a_subscribed_topic_witness :
  commandFilters (FilterEntitiesWithCommands (GetEntities linuxHost (officePc "4f1c" true))) ∅
    !! "office-pc/state" = None.
Proof.
  apply (never_publishes_on_a_subscribed_topic linuxHost
           (calmEnv (Ok (officePc "4f1c" true))) (officePc "4f1c" true)
           [ClientConnected] SIGTERM "office-pc/state" "offline" 1 true _
           (FilterEntitiesWithCommands (GetEntities linuxHost (officePc "4f1c" true)))).
  - apply processCalls_in_trace. unfold processCalls.
    apply elem_of_app. right. apply elem_of_app. right. apply list_elem_of_here.
  - apply processCalls_in_trace. unfold processCalls.
    apply elem_of_app. right. apply elem_of_app. left.
    cbn [List.filter isConnected length replicate concat]. rewrite app_nil_r.
    unfold connectionCalls. rewrite subscribeCalls_GetEntities.
    apply elem_of_app. right. apply elem_of_app. right. apply list_elem_of_here.
Defined.




(** ** The connection signal *)

Lemma onConnect_established rt env appConf (w : World) :
  ∃ w', run (onConnect rt env appConf) w = (Ret tt, w')
    ∧ connectionEstablished w' = true
    ∧ connectionLost w' = connectionLost w.
Proof.
  unfold onConnect, postConnect.
  erewrite run_bind; [|reflexivity].
  erewrite run_bind; [|reflexivity].
  erewrite run_bind; [|reflexivity].
  cbn [initialConnectionDone extend].
  destruct (initialConnectionDone w); cbn [negb].
  - erewrite run_bind; [|reflexivity].
    match goal with |- context [run _ ?w0] => set (w1 := w0) end.
    destruct (perConnection_runs rt env appConf w1) as ([] & n & evs & -> & _ & _).
    eexists. split; [reflexivity|]. by split.
  - match goal with |- context [run _ ?w0] => set (w1 := w0) end.
    destruct (publishAutoDiscoveryConfigs_runs env appConf (GetEntities rt appConf) w1)
      as ([] & n & evs & Hrun & _ & _).
    erewrite run_bind; [|erewrite run_bind; [reflexivity | exact Hrun]].
    match goal with |- context [run _ ?w0] => set (w2 := w0) end.
    destruct (perConnection_runs rt env appConf w2) as ([] & n' & evs' & -> & _ & _).
    eexists. split; [reflexivity|]. by split.
Qed.

(** X13: the on-connect handler always returns and leaves a value in the
    channel [connectionEstablished], whether or not one was there; a
    [select] on it afterwards takes the value at once, whatever the timer,
    and empties the channel, so that a second [select] depends on the
    environment again. *)
Theorem connection_signal_is_kept rt env appConf (timeoutMs : Z) (w : World) :
  ∃ w1 w2,
    run (onConnect rt env appConf) w = (Ret tt, w1)
    ∧ connectionEstablished w1 = true
    ∧ run (awaitConnection env timeoutMs) w1 = (Ret true, w2)
    ∧ connectionEstablished w2 = false
    ∧ trace w2 = trace w1 ++ [Select timeoutMs]
    ∧ run (awaitConnection env timeoutMs) w2
      = (Ret (connectsInTime env), extend w2 0 [Select timeoutMs]).
Proof.
  destruct (onConnect_established rt env appConf w) as (w1 & Hrun & Hslot & _).
  exists w1. eexists. split; [exact Hrun|]. split; [exact Hslot|].
  unfold awaitConnection. split; [|split; [|split]].
  - erewrite run_bind; [|reflexivity].
    unfold run, receiveEstablished. cbn [connectionEstablished]. rewrite Hslot.
    reflexivity.
  - reflexivity.
  - reflexivity.
  - erewrite run_bind; [|reflexivity]. reflexivity.
Qed.

(** ** Empty inputs *)

Lemma binarySensors_buttons (buttons : list Button) :
  binarySensors (map EButton buttons) = [].
Proof. induction buttons as [|b l IH]; [done|exact IH]. Qed.

(** X14: on an entity list without binary sensors [publishSensorStates]
    calls nothing on the client and logs one line in debug mode only; on an
    empty list [subscribeToCommandTopics] does not subscribe and logs one
    line, and [publishAutoDiscoveryConfigs] and [publishAvailability] log
    their first and last lines and publish nothing. *)
Theorem nothing_to_publish_or_subscribe env appConf (entityList : list Entity)
    (w : World) :
  binarySensors entityList = [] →
  run (publishSensorStates env appConf entityList) w
  = (Ret tt, extend w 0 (if DebugMode appConf
                         then [Log "No binary sensors to publish" []] else []))
  ∧ run (subscribeToCommandTopics env appConf []) w
    = (Ret tt, extend w 0 [Log "No command topics to subscribe to" []])
  ∧ run (publishAutoDiscoveryConfigs env appConf []) w
    = (Ret tt, extend w 0 [Log "Publishing auto-discovery configs for %d entities..." [AInt 0];
                           Log "Auto-discovery configs published successfully" []])
  ∧ run (publishAvailability env appConf []) w
    = (Ret tt, extend w 0 [Log "Publishing availability for %d entities..." [AInt 0];
                           Log "Availability messages published successfully" []]).
Proof.
  intros Hnone. split; [|split; [|split]].
  - unfold publishSensorStates, debugLog. rewrite Hnone. cbn [length Nat.eqb].
    destruct (DebugMode appConf); [reflexivity|]. by rewrite extend_nil.
  - reflexivity.
  - unfold publishAutoDiscoveryConfigs. run_steps. run_done.
  - unfold publishAvailability. run_steps. run_done.
Qed.

Lemma nothing_to_publish_or_subscribe_witness :
  run (publishSensorStates (calmEnv (Ok (officePc "4f1c" false))) (officePc "4f1c" false)
         [EButton (shutdownButton linuxHost (officePc "4f1c" false));
          EButton (rebootButton linuxHost (officePc "4f1c" false))]) initialWorld
  = (Ret tt, extend initialWorld 0 []).
Proof.
  apply (nothing_to_publish_or_subscribe (calmEnv (Ok (officePc "4f1c" false)))
           (officePc "4f1c" false)
           [EButton (shutdownButton linuxHost (officePc "4f1c" false));
            EButton (rebootButton linuxHost (officePc "4f1c" false))] initialWorld).
  reflexivity.
Defined.

(** ** Last will and start-up *)

(** X15: the last will [createClient] hands to the client is the very
    message [publishOfflineStatus] publishes (same topic, payload, QoS and
    retained flag), and it is the off payload on the state topic of the
    power sensor. *)
Theorem last_will_is_the_offline_publish rt env appConf :
  let opts := clientOptions appConf in
  let sensor := Sensor_DiscoveryConfig (powerSensor rt appConf) in
  runs (publishOfflineStatus env appConf) (λ _, True)
       [Publish (WillTopic opts) (WillQos opts) (WillRetained opts) (WillPayload opts)]
  ∧ (∀ w, run (createClient appConf) w
          = (Ret tt, extend w 0
                       [ Log "Creating MQTT client with ID %q for broker %q"
                             [AStr (ClientID opts); AStr (Broker opts)];
                         NewClient opts;
                         Log "MQTT client created successfully" [] ]))
  ∧ WillTopic opts = StateTopic sensor
  ∧ WillPayload opts = PayloadOff sensor.
Proof.
  intros opts sensor. split; [apply publishOfflineStatus_runs|].
  split; [|done].
  intros w. unfold createClient. run_steps. run_done.
Qed.

(** X16: [main], up to its wait for the shutdown, sends no publish and no
    subscription; it either exits with status 1 or returns with the loaded
    configuration, the latter only when the configuration loaded, the
    connect token carried no error and the connection signal was there or
    came in time; when the configuration does not load it exits after
    logging the error, without creating the client or connecting. *)
Theorem main_fails_with_status_1_or_returns rt env (w : World) :
  ∃ outcome w' evs,
    run (main rt env) w = (outcome, w')
    ∧ trace w' = trace w ++ evs
    ∧ transportCalls evs = []
    ∧ (outcome = Exited 1
       ∨ ∃ appConf, outcome = Ret appConf
           ∧ LoadConfig env = Ok appConf
           ∧ tokenError env (tokens w) = None
           ∧ connectionEstablished w || connectsInTime env = true)
    ∧ (∀ err, LoadConfig env = Err err →
         evs = [Log "Starting application" []; Log "%v" [AErr err]; Exit 1]).
Proof.
  unfold main. destruct (LoadConfig env) as [appConf|err] eqn:Hload.
  - unfold createClient, wait, awaitConnection, logFatal. run_steps.
    destruct (tokenError env (tokens w)) as [e|] eqn:Htoken.
    + run_steps. eexists _, _, _. split; [reflexivity|].
      split; [cbn; by rewrite <- !app_assoc|]. split; [reflexivity|].
      split; [by left|]. intros; discriminate.
    + run_steps. unfold receiveEstablished at 1.
      destruct (connectionEstablished w) eqn:Hslot.
      * run_steps. eexists _, _, _. split; [reflexivity|].
        split; [cbn; by rewrite <- !app_assoc|]. split; [reflexivity|].
        split; [|intros; discriminate]. right. by exists appConf.
      * run_steps. destruct (connectsInTime env) eqn:Htime.
        -- run_steps. eexists _, _, _. split; [reflexivity|].
           split; [cbn; by rewrite <- !app_assoc|]. split; [reflexivity|].
           split; [|intros; discriminate]. right. by exists appConf.
        -- run_steps. eexists _, _, _. split; [reflexivity|].
           split; [cbn; by rewrite <- !app_assoc|]. split; [reflexivity|].
           split; [by left|]. intros; discriminate.
  - unfold logFatal. run_steps. eexists _, _, _. split; [reflexivity|].
    split; [cbn; by rewrite <- !app_assoc|]. split; [reflexivity|].
    split; [by left|]. by intros ? [= ->].
Qed.

Lemma main_fails_with_status_1_or_returns_witness :
  ∃ w', run (main linuxHost (calmEnv (Err "open config.json: no such file or directory")))
            initialWorld
        = (Exited 1, w')
     ∧ trace w' = [Log "Starting application" [];
                   Log "%v" [AErr "open config.json: no such file or directory"];
                   Exit 1].
Proof.
  destruct (main_fails_with_status_1_or_returns linuxHost
              (calmEnv (Err "open config.json: no such file or directory")) initialWorld)
    as (outcome & w' & evs & Hrun & Htrace & _ & [-> | (appConf & _ & Hload & _)] & Hevs).
  - exists w'. split; [exact Hrun|]. rewrite Htrace. exact (Hevs _ eq_refl).
  - discriminate Hload.
Defined.

(** ** A button press *)

Lemma shutdown_differs_from_reboot (rt : Runtime) :
  system.GetShutdownCommand rt ≠ system.GetRebootCommand rt.
Proof.
  unfold system.GetShutdownCommand, system.GetRebootCommand.
  destruct (String.eqb (GOOS rt) system.WINDOWS); [discriminate|].
  destruct (String.eqb (GOOS rt) system.MACOS); [discriminate|].
  destruct (String.eqb (GOOS rt) system.LINUX); [discriminate|].
  intros [= H]. by strings_differ H.
Qed.

(** X17: a button action always returns and starts at most one command, the
    one the platform gives for that button (none for the test button and on
    an unsupported OS); on a supported OS the shutdown and reboot commands
    differ; when the command starts, the action logs that the shutdown or
    reboot was initiated. *)
Theorem a_press_starts_only_its_own_command rt env (a : Action) (w : World) :
  (∃ evs,
     run (runAction rt env a) w = (Ret tt, extend w 0 evs)
     ∧ startedCommands evs = option_list (platformCommand rt a))
  ∧ (system.supported rt →
     ∃ shutdown reboot,
       platformCommand rt ShutdownAction = Some shutdown
       ∧ platformCommand rt RebootAction = Some reboot
       ∧ shutdown ≠ reboot)
  ∧ (∀ cmd, system.GetShutdownCommand rt = Ok cmd → startError env cmd = None →
       run (runAction rt env ShutdownAction) w
       = (Ret tt, extend w 0
                    [Log "Shutdown button pressed - executing system shutdown" [];
                     Start cmd;
                     Log "System shutdown initiated" []]))
  ∧ (∀ cmd, system.GetRebootCommand rt = Ok cmd → startError env cmd = None →
       run (runAction rt env RebootAction) w
       = (Ret tt, extend w 0
                    [Log "Reboot button pressed - executing system reboot" [];
                     Start cmd;
                     Log "System reboot initiated" []])).
Proof.
  split; [|split; [|split]].
  - unfold runAction, platformCommand. destruct a.
    + destruct (system.GetShutdownCommand rt) as [cmd|err].
      * destruct (startError env cmd) as [e|]; eexists;
          (split; [run_steps; run_done | reflexivity]).
      * eexists. split; [run_steps; run_done | reflexivity].
    + destruct (system.GetRebootCommand rt) as [cmd|err].
      * destruct (startError env cmd) as [e|]; eexists;
          (split; [run_steps; run_done | reflexivity]).
      * eexists. split; [run_steps; run_done | reflexivity].
    + eexists. split; [run_done | reflexivity].
  - intros Hsupported. pose proof (shutdown_differs_from_reboot rt) as Hdiffer.
    unfold platformCommand.
    unfold system.supported, system.GetShutdownCommand, system.GetRebootCommand in *.
    destruct Hsupported as [H|[H|H]]; rewrite H in *; cbn in *;
      eexists _, _; (split; [reflexivity|]); (split; [reflexivity|]); congruence.
  - intros cmd Hcmd Hstart. unfold runAction. rewrite Hcmd. run_steps.
    rewrite Hstart. run_done.
  - intros cmd Hcmd Hstart. unfold runAction. rewrite Hcmd. run_steps.
    rewrite Hstart. run_done.
Qed.

Lemma a_press_starts_only_its_own_command_witness :
  run (runAction linuxHost (calmEnv (Ok (officePc "4f1c" false))) RebootAction) initialWorld
  = (Ret tt, extend initialWorld 0
               [Log "Reboot button pressed - executing system reboot" [];
                Start (system.Command "systemctl" ["reboot"; "--ignore-inhibitors"]);
                Log "System reboot initiated" []])
  ∧ ∃ shutdown reboot,
      platformCommand linuxHost ShutdownAction = Some shutdown
      ∧ platformCommand linuxHost RebootAction = Some reboot
      ∧ shutdown ≠ reboot.
Proof.
  destruct (a_press_starts_only_its_own_command linuxHost
              (calmEnv (Ok (officePc "4f1c" false))) RebootAction initialWorld)
    as (_ & Hdiffer & _ & Hreboot).
  split.
  - apply Hreboot; reflexivity.
  - apply Hdiffer. unfold system.supported. by right; right.
Defined.

(** * Goroutines *)

(** ** The steps of a schedule *)

Lemma tick_exited rt env appConf (t : Tick) (s : System) (code : Z) :
  exited s = Some code → tick rt env appConf t s = s.
Proof. intros Hexited. unfold tick. by rewrite Hexited. Qed.

Lemma runTicks_app rt env appConf (ticks ticks' : list Tick) (s : System) :
  runTicks rt env appConf (ticks ++ ticks') s
  = runTicks rt env appConf ticks' (runTicks rt env appConf ticks s).
Proof. apply foldl_app. Qed.

Lemma runTicks_cons rt env appConf (t : Tick) (ticks : list Tick) (s : System) :
  runTicks rt env appConf (t :: ticks) s
  = runTicks rt env appConf ticks (tick rt env appConf t s).
Proof. reflexivity. Qed.

Lemma tick_postConnect_ret rt env appConf (s : System) (i : nat)
    (pc pc' : PostConnectPc) (w' : World) :
  exited s = None → goroutines s !! i = Some pc →
  run (postConnectStep rt env appConf pc) (world s) = (Ret pc', w') →
  tick rt env appConf (PostConnectRuns i) s
  = {| world := w'; goroutines := <[i := pc']> (goroutines s);
       signalPc := signalPc s; exited := None |}.
Proof.
  intros Hexited Hlookup Hrun. unfold tick. rewrite Hexited, Hlookup. cbn zeta.
  by rewrite Hrun.
Qed.

Lemma tick_signal_ret rt env appConf (s : System) (pc' : SignalPc) (w' : World) :
  exited s = None →
  run (signalStep env appConf (signalPc s)) (world s) = (Ret pc', w') →
  tick rt env appConf SignalRuns s
  = {| world := w'; goroutines := goroutines s; signalPc := pc'; exited := None |}.
Proof.
  intros Hexited Hrun. unfold tick. rewrite Hexited. cbn zeta. by rewrite Hrun.
Qed.

Section Stands.

Variable rt : Runtime.
Variable env : Environment.
Variable appConf : Config.

Local Abbreviation discovery := (discoveryCalls env (GetEntities rt appConf)).
Local Abbreviation perConnection := (connectionCalls rt appConf).
Local Abbreviation offlinePublish :=
  (Publish (Topic (GetDeviceAvailability appConf)) 1 true
           (PayloadNotAvailable (GetDeviceAvailability appConf))).

Lemma stands_callback (s : System) calls flag pool sig (ev : LifecycleEvent) :
  stands s calls flag pool sig →
  stands (tick rt env appConf (ClientFires ev) s) calls flag
         (pool ++ if isConnected ev then [AtCheck] else []) sig.
Proof.
  intros (Hcalls & Hflag & Hpool & Hsig & Hexited).
  assert (∃ w', run (callback appConf ev) (world s) = (Ret tt, w')
                ∧ transportCalls (trace w') = calls
                ∧ initialConnectionDone w' = flag) as (w' & Hrun & Hcalls' & Hflag').
  { destruct ev as [|err|]; eexists; (split; [reflexivity|]); cbn;
      rewrite transportCalls_app, Hcalls; cbn; by rewrite app_nil_r. }
  unfold tick. rewrite Hexited. cbn zeta. rewrite Hrun, Hpool. by repeat split.
Qed.

Lemma stands_check (s : System) calls flag pool sig (i : nat) :
  stands s calls flag pool sig → pool !! i = Some AtCheck →
  stands (tick rt env appConf (PostConnectRuns i) s) calls flag
         (<[i := if flag then AtPublish else AtDiscovery]> pool) sig.
Proof.
  intros (Hcalls & Hflag & Hpool & Hsig & Hexited) Hlookup.
  rewrite (tick_postConnect_ret rt env appConf s i AtCheck
             (if flag then AtPublish else AtDiscovery) (world s));
    [| done | by rewrite Hpool | ].
  - by rewrite Hpool.
  - cbn [postConnectStep]. erewrite run_bind; [|reflexivity]. by rewrite Hflag.
Qed.

Lemma stands_discovery (s : System) calls flag pool sig (i : nat) :
  stands s calls flag pool sig → pool !! i = Some AtDiscovery →
  stands (tick rt env appConf (PostConnectRuns i) s) (calls ++ discovery) flag
         (<[i := AtSetFlag]> pool) sig.
Proof.
  intros (Hcalls & Hflag & Hpool & Hsig & Hexited) Hlookup.
  destruct (publishAutoDiscoveryConfigs_runs env appConf (GetEntities rt appConf) (world s))
    as ([] & n & evs & Hrun & _ & Hevs).
  rewrite (tick_postConnect_ret rt env appConf s i AtDiscovery AtSetFlag
             (extend (world s) n evs)); [| done | by rewrite Hpool | ].
  - unfold stands. cbn. rewrite transportCalls_app, Hcalls, Hevs, Hpool. by repeat split.
  - cbn [postConnectStep]. by rewrite (run_bind _ _ _ _ _ Hrun).
Qed.

Lemma stands_setFlag (s : System) calls flag pool sig (i : nat) :
  stands s calls flag pool sig → pool !! i = Some AtSetFlag →
  stands (tick rt env appConf (PostConnectRuns i) s) calls true
         (<[i := AtPublish]> pool) sig.
Proof.
  intros (Hcalls & Hflag & Hpool & Hsig & Hexited) Hlookup.
  erewrite (tick_postConnect_ret rt env appConf s i AtSetFlag AtPublish);
    [| done | by rewrite Hpool | cbn [postConnectStep]; erewrite run_bind; reflexivity].
  unfold stands. cbn. rewrite Hpool. by repeat split.
Qed.

Lemma publishPhase_runs :
  runs (postConnectStep rt env appConf AtPublish) (λ pc, pc = AtEnd) perConnection.
Proof.
  cbn [postConnectStep]. unfold connectionCalls.
  apply (runs_bind _ _ (λ _, True)); [apply publishAvailability_runs|]. intros _ _.
  apply (runs_bind _ _ (λ _, True)); [apply publishSensorStates_runs|]. intros _ _.
  eapply runs_weaken; [|done|apply app_nil_r].
  apply (runs_bind _ _ (λ _, True)); [apply subscribeToCommandTopics_runs|]. intros _ _.
  by apply runs_ret.
Qed.

Lemma stands_publish (s : System) calls flag pool sig (i : nat) :
  stands s calls flag pool sig → pool !! i = Some AtPublish →
  stands (tick rt env appConf (PostConnectRuns i) s) (calls ++ perConnection) flag
         (<[i := AtEnd]> pool) sig.
Proof.
  intros (Hcalls & Hflag & Hpool & Hsig & Hexited) Hlookup.
  destruct (publishPhase_runs (world s)) as (pc & n & evs & Hrun & -> & Hevs).
  rewrite (tick_postConnect_ret rt env appConf s i AtPublish AtEnd
             (extend (world s) n evs)); [| done | by rewrite Hpool | done].
  unfold stands. cbn. rewrite transportCalls_app, Hcalls, Hevs, Hpool. by repeat split.
Qed.

Lemma stands_end (s : System) calls flag pool sig (i : nat) :
  stands s calls flag pool sig → pool !! i = Some AtEnd →
  stands (tick rt env appConf (PostConnectRuns i) s) calls flag pool sig.
Proof.
  intros (Hcalls & Hflag & Hpool & Hsig & Hexited) Hlookup.
  rewrite (tick_postConnect_ret rt env appConf s i AtEnd AtEnd (world s));
    [| done | by rewrite Hpool | done].
  unfold stands. cbn. rewrite Hpool, list_insert_id by done. by repeat split.
Qed.


Lemma stands_signal_received (s : System) calls flag pool (sig : Signal) :
  stands s calls flag pool (SigReceived sig) →
  ∃ token, stands (tick rt env appConf SignalRuns s) (calls ++ [offlinePublish]) flag pool
                  (SigWaitToken token).
Proof.
  intros (Hcalls & Hflag & Hpool & Hsig & Hexited).
  exists (tokens (world s)).
  erewrite tick_signal_ret; [| done | rewrite Hsig; cbn [signalStep]; run_steps; reflexivity].
  unfold stands. cbn. rewrite !transportCalls_app, Hcalls. cbn. rewrite !app_nil_r.
  by repeat split.
Qed.

Lemma stands_signal_wait (s : System) calls flag pool (token : nat) :
  stands s calls flag pool (SigWaitToken token) →
  stands (tick rt env appConf SignalRuns s) calls flag pool SigSleep.
Proof.
  intros (Hcalls & Hflag & Hpool & Hsig & Hexited).
  assert (∃ ev, isTransportCall ev = false
                ∧ run (signalStep env appConf (SigWaitToken token)) (world s)
                  = (Ret SigSleep, extend (world s) 0 [WaitTimeout 2000; ev]))
    as (ev & Hev & Hrun).
  { cbn [signalStep]. unfold waitTimeout. run_steps.
    destruct (if completesInTime env token then tokenError env token else None);
      eexists; (split; [|run_steps; run_done]); reflexivity. }
  erewrite tick_signal_ret; [| done | rewrite Hsig; exact Hrun].
  unfold stands. cbn. rewrite transportCalls_app, Hcalls. cbn. rewrite Hev.
  rewrite app_nil_r. by repeat split.
Qed.

Lemma stands_signal_sleep (s : System) calls flag pool :
  stands s calls flag pool SigSleep →
  stands (tick rt env appConf SignalRuns s) calls flag pool SigDisconnect.
Proof.
  intros (Hcalls & Hflag & Hpool & Hsig & Hexited).
  erewrite tick_signal_ret; [| done | rewrite Hsig; cbn [signalStep]; run_steps; reflexivity].
  unfold stands. cbn. rewrite transportCalls_app, Hcalls. cbn. rewrite app_nil_r.
  by repeat split.
Qed.

Lemma signal_disconnect (s : System) calls flag pool :
  stands s calls flag pool SigDisconnect →
  exited (tick rt env appConf SignalRuns s) = Some 0
  ∧ transportCalls (trace (world (tick rt env appConf SignalRuns s))) = calls
  ∧ trace (world (tick rt env appConf SignalRuns s))
    = trace (world s) ++ [Disconnect 2000; MainCancel; Exit 0]
  ∧ goroutines (tick rt env appConf SignalRuns s) = pool.
Proof.
  intros (Hcalls & Hflag & Hpool & Hsig & Hexited).
  unfold tick. rewrite Hexited, Hsig. cbn zeta.
  assert (run (signalStep env appConf SigDisconnect) (world s)
          = (Exited 0, extend (world s) 0 [Disconnect 2000; MainCancel; Exit 0])) as ->.
  { cbn [signalStep]. run_steps. run_done. }
  cbn. rewrite transportCalls_app, Hcalls. cbn. by rewrite app_nil_r.
Qed.

Lemma pool_lookup_last (pool : list PostConnectPc) (pc : PostConnectPc) :
  (pool ++ [pc]) !! length pool = Some pc.
Proof. by apply list_lookup_middle. Qed.

Lemma pool_insert_last (pool : list PostConnectPc) (pc pc' : PostConnectPc) :
  <[length pool := pc']> (pool ++ [pc]) = pool ++ [pc'].
Proof. rewrite insert_app_r_alt by done. by rewrite Nat.sub_diag. Qed.

(** A connection event whose goroutine runs to its end before anything
    else happens. *)
Lemma serial_block (s : System) calls flag pool sig :
  stands s calls flag pool sig →
  stands (runTicks rt env appConf
            (ClientFires ClientConnected :: replicate 4 (PostConnectRuns (length pool))) s)
         (calls ++ (if flag then [] else discovery) ++ perConnection) true (pool ++ [AtEnd]) sig.
Proof.
  intros Hs. cbn [replicate]. rewrite !runTicks_cons.
  apply (stands_callback _ _ _ _ _ ClientConnected) in Hs. cbn [isConnected] in Hs.
  apply (stands_check _ _ _ _ _ (length pool)) in Hs; [|apply pool_lookup_last].
  rewrite pool_insert_last in Hs. destruct flag.
  - apply (stands_publish _ _ _ _ _ (length pool)) in Hs; [|apply pool_lookup_last].
    rewrite pool_insert_last in Hs.
    apply (stands_end _ _ _ _ _ (length pool)) in Hs; [|apply pool_lookup_last].
    apply (stands_end _ _ _ _ _ (length pool)) in Hs; [|apply pool_lookup_last].
    exact Hs.
  - apply (stands_discovery _ _ _ _ _ (length pool)) in Hs; [|apply pool_lookup_last].
    rewrite pool_insert_last in Hs.
    apply (stands_setFlag _ _ _ _ _ (length pool)) in Hs; [|apply pool_lookup_last].
    rewrite pool_insert_last in Hs.
    apply (stands_publish _ _ _ _ _ (length pool)) in Hs; [|apply pool_lookup_last].
    rewrite pool_insert_last, <- app_assoc in Hs.
    exact Hs.
Qed.

Lemma serialTicks_stands (evs : list LifecycleEvent) (s : System) calls flag pool sig :
  stands s calls flag pool sig →
  stands (runTicks rt env appConf (serialTicks evs (length pool)) s)
         (calls ++ (if flag then [] else if existsb isConnected evs then discovery else [])
                ++ concat (replicate (length (List.filter isConnected evs)) perConnection))
         (flag || existsb isConnected evs)
         (pool ++ replicate (length (List.filter isConnected evs)) AtEnd) sig.
Proof.
  revert s calls flag pool. induction evs as [|ev evs IH]; intros s calls flag pool Hs.
  - cbn. rewrite !app_nil_r, orb_false_r. by destruct flag; rewrite ?app_nil_r.
  - destruct ev as [|err|];
      cbn [serialTicks existsb isConnected List.filter length orb].
    + rewrite app_comm_cons, runTicks_app. apply serial_block in Hs.
      replace (S (length pool)) with (length (pool ++ [AtEnd]))
        by (rewrite length_app; cbn; lia).
      apply IH in Hs. cbn [orb] in Hs. rewrite orb_true_r.
      cbn [replicate concat].
      rewrite <- !app_assoc in Hs. cbn [app] in Hs.
      exact Hs.
    + rewrite runTicks_cons.
      apply (stands_callback _ _ _ _ _ (ClientConnectionLost err)) in Hs.
      cbn [isConnected] in Hs. rewrite app_nil_r in Hs. by apply IH in Hs.
    + rewrite runTicks_cons.
      apply (stands_callback _ _ _ _ _ ClientReconnecting) in Hs.
      cbn [isConnected] in Hs. rewrite app_nil_r in Hs. by apply IH in Hs.
Qed.

Lemma initialSystem_stands : stands initialSystem [] false [] SigBlocked.
Proof. by repeat split. Qed.

(** Two goroutines that both pass the test of line 271 before either
    reaches line 274 both publish the discovery configs. *)
Lemma overlappingTicks_stands (err : string) :
  stands (runTicks rt env appConf (overlappingTicks err) initialSystem)
         (discovery ++ perConnection ++ discovery ++ perConnection) true [AtEnd; AtEnd] SigBlocked.
Proof.
  pose proof initialSystem_stands as Hs. unfold overlappingTicks.
  cbn [replicate app]. rewrite !runTicks_cons.
  apply (stands_callback _ _ _ _ _ ClientConnected) in Hs.
  apply (stands_check _ _ _ _ _ 0%nat) in Hs; [|done].
  apply (stands_callback _ _ _ _ _ (ClientConnectionLost err)) in Hs.
  apply (stands_callback _ _ _ _ _ ClientReconnecting) in Hs.
  apply (stands_callback _ _ _ _ _ ClientConnected) in Hs.
  apply (stands_check _ _ _ _ _ 1%nat) in Hs; [|done].
  apply (stands_discovery _ _ _ _ _ 0%nat) in Hs; [|done].
  apply (stands_setFlag _ _ _ _ _ 0%nat) in Hs; [|done].
  apply (stands_publish _ _ _ _ _ 0%nat) in Hs; [|done].
  apply (stands_discovery _ _ _ _ _ 1%nat) in Hs; [|done].
  apply (stands_setFlag _ _ _ _ _ 1%nat) in Hs; [|done].
  apply (stands_publish _ _ _ _ _ 1%nat) in Hs; [|done].
  cbn in Hs. rewrite <- !app_assoc in Hs. exact Hs.
Qed.

End Stands.




(** C1: the claim fails on the code when the goroutines of two connection
    events overlap.  The flag [initialConnectionDone] is tested at line 271
    and set at line 274, after the discovery publishes, and nothing keeps a
    second post-connect goroutine from testing it in between.  Under the
    schedule [overlappingTicks] (connected, connection lost, connected again
    while the first goroutine is between the two lines) both goroutines
    publish the discovery configs: the calls of the run are the discovery
    publishes followed by the per-connection calls, twice over, and the
    per-connection calls hold no discovery publish.  At the sample
    configuration each of the three discovery topics is published twice. *)
Theorem C1_overlapping_connections_republish_discovery :
  (∀ rt env appConf (err : string),
     let s := runTicks rt env appConf (overlappingTicks err) initialSystem in
     exited s = None
     ∧ goroutines s = [AtEnd; AtEnd]
     ∧ transportCalls (trace (world s))
       = discoveryCalls env (GetEntities rt appConf) ++ connectionCalls rt appConf
         ++ discoveryCalls env (GetEntities rt appConf) ++ connectionCalls rt appConf
     ∧ Forall (λ ev, ¬ isDiscoveryPublish (GetEntities rt appConf) ev)
              (connectionCalls rt appConf))
  ∧ omap publishedTopic
         (trace (world (runTicks linuxHost (calmEnv (Ok (officePc "4f1c" false)))
                                 (officePc "4f1c" false) (overlappingTicks "EOF")
                                 initialSystem)))
    = [ "homeassistant/binary_sensor/4f1c/office-pc_sensor_power/config";
        "homeassistant/button/4f1c/office-pc_button_shutdown/config";
        "homeassistant/button/4f1c/office-pc_button_reboot/config";
        "office-pc/binary_sensor/availability";
        "office-pc/state"; "office-pc/state"; "office-pc/state";
        "homeassistant/binary_sensor/4f1c/office-pc_sensor_power/config";
        "homeassistant/button/4f1c/office-pc_button_shutdown/config";
        "homeassistant/button/4f1c/office-pc_button_reboot/config";
        "office-pc/binary_sensor/availability";
        "office-pc/state"; "office-pc/state"; "office-pc/state" ].
Proof.
  split; [|vm_compute; reflexivity].
  intros rt env appConf err s.
  destruct (overlappingTicks_stands rt env appConf err) as (Hcalls & _ & Hpool & _ & Hexited).
  split; [exact Hexited|]. split; [exact Hpool|]. split; [exact Hcalls|].
  apply connectionCalls_no_discovery.
Qed.

(** X8: when every post-connect goroutine runs to its end before the next
    client event (the schedule [serialTicks]), then over any sequence of
    connected, connection-lost and reconnecting events from process start
    the discovery configs are sent once, ahead of everything else, and only
    if some event is a connected one; every connected event sends the
    per-connection calls, none of which is a discovery publish;
    connection-lost and reconnecting events send nothing; the flag ends set
    exactly when a connected event occurred, and every goroutine has
    ended. *)
Theorem discovery_once_without_overlap rt env appConf (evs : list LifecycleEvent) :
  let s := runTicks rt env appConf (serialTicks evs 0) initialSystem in
  let connected := length (List.filter isConnected evs) in
  exited s = None
  ∧ transportCalls (trace (world s))
    = (if existsb isConnected evs then discoveryCalls env (GetEntities rt appConf) else [])
      ++ concat (replicate connected (connectionCalls rt appConf))
  ∧ Forall (λ ev, ¬ isDiscoveryPublish (GetEntities rt appConf) ev)
           (connectionCalls rt appConf)
  ∧ initialConnectionDone (world s) = existsb isConnected evs
  ∧ goroutines s = replicate connected AtEnd.
Proof.
  intros s connected.
  destruct (serialTicks_stands rt env appConf evs initialSystem [] false [] SigBlocked
              (initialSystem_stands)) as (Hcalls & Hflag & Hpool & _ & Hexited).
  split; [exact Hexited|]. split; [exact Hcalls|].
  split; [apply connectionCalls_no_discovery|]. by split.
Qed.

(** ** The signal goroutine among the others *)



(** ** The sequential readings are schedules *)

Section Serial.

Variable rt : Runtime.
Variable env : Environment.
Variable appConf : Config.

Lemma publishPhase_agrees (w : World) :
  ∃ w', run (publishAvailability env appConf (GetEntities rt appConf);;
             publishSensorStates env appConf (GetEntities rt appConf);;
             subscribeToCommandTopics env appConf
               (FilterEntitiesWithCommands (GetEntities rt appConf))) w = (Ret tt, w')
        ∧ run (postConnectStep rt env appConf AtPublish) w = (Ret AtEnd, w').
Proof.
  destruct (publishAvailability_runs env appConf (GetEntities rt appConf) w)
    as ([] & n1 & evs1 & Hrun1 & _ & _).
  destruct (publishSensorStates_runs env appConf (GetEntities rt appConf)
              (extend w n1 evs1)) as ([] & n2 & evs2 & Hrun2 & _ & _).
  destruct (subscribeToCommandTopics_runs env appConf
              (FilterEntitiesWithCommands (GetEntities rt appConf))
              (extend (extend w n1 evs1) n2 evs2)) as ([] & n3 & evs3 & Hrun3 & _ & _).
  eexists. cbn [postConnectStep].
  rewrite !(run_bind _ _ _ _ _ Hrun1), !(run_bind _ _ _ _ _ Hrun2),
    (run_bind _ _ _ _ _ Hrun3).
  split; [exact Hrun3|reflexivity].
Qed.

Lemma tick_postConnect (w w' : World) (pool : list PostConnectPc) (sig : SignalPc)
    (i : nat) (pc pc' : PostConnectPc) :
  pool !! i = Some pc →
  run (postConnectStep rt env appConf pc) w = (Ret pc', w') →
  tick rt env appConf (PostConnectRuns i)
       {| world := w; goroutines := pool; signalPc := sig; exited := None |}
  = {| world := w'; goroutines := <[i := pc']> pool; signalPc := sig; exited := None |}.
Proof.
  intros Hlookup Hrun.
  exact (tick_postConnect_ret rt env appConf
           {| world := w; goroutines := pool; signalPc := sig; exited := None |}
           i pc pc' w' eq_refl Hlookup Hrun).
Qed.

(** The phases of a post-connect goroutine run one after the other with
    nothing in between are [postConnect]. *)
Lemma postConnect_phases (s : System) (i : nat) :
  exited s = None → goroutines s !! i = Some AtCheck →
  let s' := runTicks rt env appConf (replicate 4 (PostConnectRuns i)) s in
  run (postConnect rt env appConf) (world s) = (Ret tt, world s')
  ∧ goroutines s' = <[i := AtEnd]> (goroutines s)
  ∧ signalPc s' = signalPc s
  ∧ exited s' = None.
Proof.
  destruct s as [w pool sig ex]. cbn [exited goroutines world signalPc].
  intros -> Hlookup. cbn zeta. cbn [replicate]. rewrite !runTicks_cons.
  change (runTicks rt env appConf [] ?s0) with s0.
  pose proof (lookup_lt_Some _ _ _ Hlookup) as Hlt.
  assert (∀ pc, <[i := pc]> pool !! i = Some pc) as Hat
    by (intros pc; by apply list_lookup_insert_eq).
  rewrite (tick_postConnect w w pool sig i AtCheck
             (if initialConnectionDone w then AtPublish else AtDiscovery) Hlookup)
    by (cbn [postConnectStep]; erewrite run_bind; reflexivity).
  unfold postConnect. erewrite run_bind; [|reflexivity].
  destruct (initialConnectionDone w) eqn:Hflag; cbn [negb].
  - erewrite run_bind; [|reflexivity].
    destruct (publishPhase_agrees w) as (w' & -> & Hphase).
    rewrite (tick_postConnect _ _ _ _ _ _ _ (Hat _) Hphase), list_insert_insert_eq.
    rewrite (tick_postConnect w' w' _ _ _ AtEnd AtEnd (Hat _) eq_refl), list_insert_insert_eq.
    rewrite (tick_postConnect w' w' _ _ _ AtEnd AtEnd (Hat _) eq_refl), list_insert_insert_eq.
    done.
  - destruct (publishAutoDiscoveryConfigs_runs env appConf (GetEntities rt appConf) w)
      as ([] & n & evs & Hrun & _ & _).
    rewrite (tick_postConnect w (extend w n evs) _ _ _ AtDiscovery AtSetFlag (Hat _))
      by (cbn [postConnectStep]; by rewrite (run_bind _ _ _ _ _ Hrun)).
    rewrite list_insert_insert_eq.
    erewrite (tick_postConnect _ _ _ _ _ AtSetFlag AtPublish (Hat _));
      [| cbn [postConnectStep]; erewrite run_bind; reflexivity ].
    rewrite list_insert_insert_eq.
    erewrite run_bind; [|erewrite run_bind; [reflexivity|exact Hrun]].
    match goal with |- context [run _ ?w0] => set (w2 := w0) end.
    destruct (publishPhase_agrees w2) as (w' & -> & Hphase).
    rewrite (tick_postConnect _ _ _ _ _ _ _ (Hat _) Hphase), list_insert_insert_eq.
    done.
Qed.

(** The on-connect callback and the phases of the goroutine it starts, one
    after the other, are [onConnect]. *)
Lemma onConnect_serial (s : System) :
  exited s = None →
  let s' := runTicks rt env appConf
              (ClientFires ClientConnected
                 :: replicate 4 (PostConnectRuns (length (goroutines s)))) s in
  run (onConnect rt env appConf) (world s) = (Ret tt, world s')
  ∧ goroutines s' = goroutines s ++ [AtEnd]
  ∧ signalPc s' = signalPc s
  ∧ exited s' = None.
Proof.
  intros Hexited. cbn zeta. rewrite runTicks_cons.
  set (s1 := tick rt env appConf (ClientFires ClientConnected) s).
  assert (run (onConnectCallback appConf) (world s) = (Ret tt, world s1)
          ∧ goroutines s1 = goroutines s ++ [AtCheck]
          ∧ signalPc s1 = signalPc s ∧ exited s1 = None) as (Hrun & Hpool & Hsig & Hex).
  { subst s1. unfold tick. rewrite Hexited. by repeat split. }
  destruct (postConnect_phases s1 (length (goroutines s)) Hex) as (Hpost & Hpool' & Hsig' & Hex').
  { rewrite Hpool. apply pool_lookup_last. }
  cbn zeta in Hpost, Hpool', Hsig', Hex'.
  split; [|split; [|split]].
  - unfold onConnect. unfold onConnectCallback in Hrun.
    rewrite <- Hpost.
    change (run (emit (Log "Connected to %q:%d"
                           [AStr (Host (Mqtt appConf)); AInt (Port (Mqtt appConf))]);;
                 trySendEstablished;; postConnect rt env appConf) (world s)
            = run (postConnect rt env appConf) (world s1)).
    rewrite <- run_bind_assoc. by rewrite (run_bind _ _ _ _ _ Hrun).
  - by rewrite Hpool', Hpool, pool_insert_last.
  - by rewrite Hsig'.
  - exact Hex'.
Qed.

Lemma callback_serial (s : System) (ev : LifecycleEvent) :
  exited s = None → isConnected ev = false →
  let s' := tick rt env appConf (ClientFires ev) s in
  run (handleLifecycle rt env appConf ev) (world s) = (Ret tt, world s')
  ∧ goroutines s' = goroutines s
  ∧ signalPc s' = signalPc s
  ∧ exited s' = None.
Proof.
  intros Hexited Hev. cbn zeta. unfold tick. rewrite Hexited.
  destruct ev as [|err|]; [done|..]; cbn; by rewrite app_nil_r.
Qed.

(** The callbacks of [lifecycle] are the schedule [serialTicks]. *)
Lemma lifecycle_serial (evs : list LifecycleEvent) (s : System) :
  exited s = None →
  let s' := runTicks rt env appConf (serialTicks evs (length (goroutines s))) s in
  run (lifecycle rt env appConf evs) (world s) = (Ret tt, world s')
  ∧ signalPc s' = signalPc s
  ∧ exited s' = None.
Proof.
  revert s. induction evs as [|ev evs IH]; intros s Hexited; [done|].
  cbn zeta. cbn [lifecycle].
  destruct (isConnected ev) eqn:Hev.
  - destruct ev; try discriminate Hev. cbn [serialTicks handleLifecycle].
    rewrite app_comm_cons, runTicks_app.
    destruct (onConnect_serial s Hexited) as (Hrun & Hpool & Hsig & Hex).
    cbn zeta in Hrun, Hpool, Hsig, Hex.
    rewrite (run_bind _ _ _ _ _ Hrun).
    set (s1 := runTicks rt env appConf _ s) in *.
    replace (S (length (goroutines s))) with (length (goroutines s1))
      by (rewrite Hpool, length_app; cbn; lia).
    destruct (IH s1 Hex) as (Hrun' & Hsig' & Hex'). cbn zeta in Hrun', Hsig', Hex'.
    split; [exact Hrun'|]. split; [by rewrite Hsig'|exact Hex'].
  - destruct (callback_serial s ev Hexited Hev) as (Hrun & Hpool & Hsig & Hex).
    cbn zeta in Hrun, Hpool, Hsig, Hex.
    rewrite (run_bind _ _ _ _ _ Hrun).
    assert (serialTicks (ev :: evs) (length (goroutines s))
            = ClientFires ev :: serialTicks evs (length (goroutines s))) as ->
      by (by destruct ev).
    rewrite runTicks_cons.
    set (s1 := tick rt env appConf (ClientFires ev) s) in *.
    rewrite <- Hpool.
    destruct (IH s1 Hex) as (Hrun' & Hsig' & Hex'). cbn zeta in Hrun', Hsig', Hex'.
    split; [exact Hrun'|]. split; [by rewrite Hsig'|exact Hex'].
Qed.

Lemma tick_signal (w w' : World) (pool : list PostConnectPc) (pc pc' : SignalPc) :
  run (signalStep env appConf pc) w = (Ret pc', w') →
  tick rt env appConf SignalRuns
       {| world := w; goroutines := pool; signalPc := pc; exited := None |}
  = {| world := w'; goroutines := pool; signalPc := pc'; exited := None |}.
Proof.
  intros Hrun.
  exact (tick_signal_ret rt env appConf
           {| world := w; goroutines := pool; signalPc := pc; exited := None |}
           pc' w' eq_refl Hrun).
Qed.

(** The phases of the signal goroutine are [signalHandler]. *)
Lemma signalHandler_serial (sig : Signal) (s : System) :
  exited s = None → signalPc s = SigBlocked →
  let s' := runTicks rt env appConf (shutdownTicks sig) s in
  run (signalHandler env appConf sig) (world s) = (Exited 0, world s')
  ∧ exited s' = Some 0.
Proof.
  destruct s as [w pool pc ex]. cbn [exited goroutines world signalPc].
  intros -> ->. cbn zeta. unfold shutdownTicks. cbn [replicate].
  rewrite !runTicks_cons. change (runTicks rt env appConf [] ?s0) with s0.
  change (tick rt env appConf (SignalArrives sig) _)
    with {| world := w; goroutines := pool; signalPc := SigReceived sig; exited := None |}.
  erewrite (tick_signal _ _ _ (SigReceived sig));
    [| cbn [signalStep]; run_steps; reflexivity].
  cbn [extend connectionLost connectionEstablished initialConnectionDone tokens trace].
  unfold signalHandler, publishOfflineStatus, waitTimeout. run_steps.
  destruct (if completesInTime env (tokens w) then tokenError env (tokens w) else None)
    as [e|] eqn:Herr.
  - erewrite (tick_signal _ _ _ (SigWaitToken (tokens w)));
      [| cbn [signalStep]; unfold waitTimeout; run_steps; rewrite Herr; run_steps;
         reflexivity].
    erewrite (tick_signal _ _ _ SigSleep); [| cbn [signalStep]; run_steps; reflexivity].
    unfold tick. cbn [exited signalPc signalStep world goroutines].
    split; reflexivity.
  - erewrite (tick_signal _ _ _ (SigWaitToken (tokens w)));
      [| cbn [signalStep]; unfold waitTimeout; run_steps; rewrite Herr; run_steps;
         reflexivity].
    erewrite (tick_signal _ _ _ SigSleep); [| cbn [signalStep]; run_steps; reflexivity].
    unfold tick. cbn [exited signalPc signalStep world goroutines].
    split; reflexivity.
Qed.

(** [processRun] is the schedule in which every goroutine runs to its end
    before the next callback fires and the signal arrives after the last of
    them. *)
Lemma processRun_serial (evs : list LifecycleEvent) (sig : Signal) :
  let s := runTicks rt env appConf (serialTicks evs 0 ++ shutdownTicks sig) initialSystem in
  run (processRun rt env appConf evs sig) initialWorld = (Exited 0, world s)
  ∧ exited s = Some 0.
Proof.
  cbn zeta. rewrite runTicks_app. unfold processRun.
  destruct (lifecycle_serial evs initialSystem eq_refl) as (Hrun & Hsig & Hex).
  cbn zeta in Hrun, Hsig, Hex. cbn [goroutines initialSystem length] in *.
  change (world initialSystem) with initialWorld in Hrun.
  rewrite (run_bind _ _ _ _ _ Hrun).
  by apply signalHandler_serial.
Qed.

End Serial.

(** ** Every schedule *)

Section EverySchedule.

Variable rt : Runtime.
Variable env : Environment.
Variable appConf : Config.

Lemma stands_refl (s : System) :
  exited s = None →
  stands s (transportCalls (trace (world s))) (initialConnectionDone (world s))
         (goroutines s) (signalPc s).
Proof. by repeat split. Qed.

Lemma tick_calls (t : Tick) (s : System) :
  ∃ calls, transportCalls (trace (world (tick rt env appConf t s)))
           = transportCalls (trace (world s)) ++ calls
           ∧ calls ∈ stepCalls rt env appConf.
Proof.
  assert (∀ s', s' = s → ∃ calls, transportCalls (trace (world s'))
                                   = transportCalls (trace (world s)) ++ calls
                                   ∧ calls ∈ stepCalls rt env appConf) as Hsame.
  { intros s' ->. exists []. rewrite app_nil_r. split; [done|]. apply list_elem_of_here. }
  destruct (exited s) as [code|] eqn:Hexited.
  { apply Hsame. by apply (tick_exited rt env appConf t s code). }
  pose proof (stands_refl s Hexited) as Hs.
  destruct t as [ev|i|sig|].
  - apply (stands_callback rt env appConf _ _ _ _ _ ev) in Hs as (-> & _).
    exists []. rewrite app_nil_r. split; [done|]. apply list_elem_of_here.
  - destruct (goroutines s !! i) as [pc|] eqn:Hlookup.
    + destruct pc.
      * apply (stands_check rt env appConf _ _ _ _ _ i) in Hs as (-> & _); [|done].
        exists []. rewrite app_nil_r. split; [done|]. apply list_elem_of_here.
      * apply (stands_discovery rt env appConf _ _ _ _ _ i) in Hs as (-> & _); [|done].
        eexists. split; [done|]. apply list_elem_of_further, list_elem_of_here.
      * apply (stands_setFlag rt env appConf _ _ _ _ _ i) in Hs as (-> & _); [|done].
        exists []. rewrite app_nil_r. split; [done|]. apply list_elem_of_here.
      * apply (stands_publish rt env appConf _ _ _ _ _ i) in Hs as (-> & _); [|done].
        eexists. split; [done|]. do 2 apply list_elem_of_further. apply list_elem_of_here.
      * apply (stands_end rt env appConf _ _ _ _ _ i) in Hs as (-> & _); [|done].
        exists []. rewrite app_nil_r. split; [done|]. apply list_elem_of_here.
    + apply Hsame. unfold tick. by rewrite Hexited, Hlookup.
  - exists []. rewrite app_nil_r. split; [|apply list_elem_of_here].
    unfold tick. rewrite Hexited. by destruct (signalPc s).
  - destruct (signalPc s) as [|sig|token| |] eqn:Hsig.
    + exists []. rewrite app_nil_r. split; [|apply list_elem_of_here].
      unfold tick. by rewrite Hexited, Hsig.
    + apply (stands_signal_received rt env appConf) in Hs as (token & -> & _).
      eexists. split; [done|]. do 3 apply list_elem_of_further. apply list_elem_of_here.
    + apply (stands_signal_wait rt env appConf) in Hs as (-> & _).
      exists []. rewrite app_nil_r. split; [done|]. apply list_elem_of_here.
    + apply (stands_signal_sleep rt env appConf) in Hs as (-> & _).
      exists []. rewrite app_nil_r. split; [done|]. apply list_elem_of_here.
    + apply (signal_disconnect rt env appConf) in Hs as (_ & -> & _).
      exists []. rewrite app_nil_r. split; [done|]. apply list_elem_of_here.
Qed.

Lemma runTicks_calls (ticks : list Tick) (s : System) :
  ∃ blocks, transportCalls (trace (world (runTicks rt env appConf ticks s)))
            = transportCalls (trace (world s)) ++ concat blocks
            ∧ Forall (λ calls, calls ∈ stepCalls rt env appConf) blocks.
Proof.
  revert s. induction ticks as [|t ticks IH]; intros s.
  - exists []. cbn. by rewrite app_nil_r.
  - rewrite runTicks_cons.
    destruct (IH (tick rt env appConf t s)) as (blocks & -> & Hblocks).
    destruct (tick_calls t s) as (calls & -> & Hcalls).
    exists (calls :: blocks). cbn [concat]. rewrite <- app_assoc.
    split; [done|]. by constructor.
Qed.

Lemma every_schedule_Forall (P : Event → Prop) (ticks : list Tick) :
  (∀ ety configJson, ety ∈ GetEntities rt appConf →
                     P (Publish (GetDiscoveryTopic ety) 1 true configJson)) →
  Forall P (connectionCalls rt appConf) →
  P (Publish (Topic (GetDeviceAvailability appConf)) 1 true "offline") →
  Forall P (transportCalls (trace (world (runTicks rt env appConf ticks initialSystem)))).
Proof.
  intros Hdiscovery Hconnection Hoffline.
  destruct (runTicks_calls ticks initialSystem) as (blocks & -> & Hblocks).
  cbn [initialSystem world initialWorld trace transportCalls List.filter app].
  induction Hblocks as [|calls blocks Hcalls _ IH]; [constructor|].
  cbn [concat]. apply Forall_app. split; [|exact IH].
  unfold stepCalls in Hcalls.
  apply elem_of_cons in Hcalls as [->|Hcalls]; [constructor|].
  apply elem_of_cons in Hcalls as [->|Hcalls].
  { apply Forall_forall. intros ev (ety & configJson & Hety & ->)%discoveryCalls_elem.
    by apply Hdiscovery. }
  apply elem_of_cons in Hcalls as [->|Hcalls]; [exact Hconnection|].
  apply list_elem_of_singleton in Hcalls as ->. by repeat constructor.
Qed.

End EverySchedule.

Lemma transportCalls_elem (ev : Event) (evs : list Event) :
  ev ∈ transportCalls evs ↔ ev ∈ evs ∧ isTransportCall ev = true.
Proof. unfold transportCalls. by rewrite !list_elem_of_In, List.filter_In. Qed.

(** X18: under every schedule of the callbacks, the phases of the
    post-connect goroutines and the phases of the signal goroutine, every
    publish of the trace is retained and at QoS 1, every filter of every
    subscription is at QoS 1, and no publish is on a topic of a subscription
    of the trace. *)
Theorem every_schedule_sends_well_formed_calls rt env appConf (ticks : list Tick) :
  let w := world (runTicks rt env appConf ticks initialSystem) in
  Forall retainedAtQos1 (trace w)
  ∧ ∀ (topic payload : string) (qos : Z) (retained : bool) (filters : gmap string Z)
      (captured : list EntityWithCommand),
      Publish topic qos retained payload ∈ trace w →
      SubscribeMultiple filters captured ∈ trace w →
      filters !! topic = None.
Proof.
  intros w. subst w. split.
  - assert (Forall retainedAtQos1
              (transportCalls (trace (world (runTicks rt env appConf ticks initialSystem)))))
      as Hforall.
    { apply every_schedule_Forall.
      - by intros.
      - apply connectionCalls_retainedAtQos1.
      - done. }
    apply Forall_forall. intros ev Hin.
    destruct (isTransportCall ev) eqn:Hcall.
    + eapply Forall_forall in Hforall; [exact Hforall|]. by apply transportCalls_elem.
    + by destruct ev.
  - intros topic payload qos retained filters captured Hpub Hsub.
    assert (Publish topic qos retained payload
            ∈ transportCalls (trace (world (runTicks rt env appConf ticks initialSystem))))
      as Hpub' by (by apply transportCalls_elem).
    assert (SubscribeMultiple filters captured
            ∈ transportCalls (trace (world (runTicks rt env appConf ticks initialSystem))))
      as Hsub' by (by apply transportCalls_elem).
    assert (Forall offCommandTopics
              (transportCalls (trace (world (runTicks rt env appConf ticks initialSystem)))))
      as Hoff.
    { apply every_schedule_Forall.
      - intros ety configJson Hety. cbn.
        rewrite (discoveryTopic_lastChar rt appConf ety Hety). discriminate.
      - apply connectionCalls_offCommandTopics.
      - cbn. rewrite lastChar_app by discriminate. discriminate. }
    assert (Forall (λ ev, ∀ filters' captured', ev = SubscribeMultiple filters' captured' →
                          filters' = commandFilters
                                       (FilterEntitiesWithCommands (GetEntities rt appConf)) ∅)
              (transportCalls (trace (world (runTicks rt env appConf ticks initialSystem)))))
      as Hfilters.
    { apply every_schedule_Forall.
      - intros; discriminate.
      - unfold connectionCalls.
        rewrite availabilityCalls_GetEntities, sensorStateCalls_GetEntities,
          subscribeCalls_GetEntities.
        apply Forall_app. split; [apply Forall_cons; split|].
        * intros; discriminate.
        * apply Forall_forall. intros ev ->%elem_of_replicate_inv. intros; discriminate.
        * repeat constructor; [intros; discriminate|]. by intros ?? [= <- _].
      - intros; discriminate. }
    eapply Forall_forall in Hoff; [|exact Hpub'].
    eapply Forall_forall in Hfilters; [|exact Hsub'].
    rewrite (Hfilters _ _ eq_refl), commandFilters_lookup, lookup_empty.
    rewrite decide_False; [done|].
    intros (b & -> & Hb)%list_elem_of_fmap.
    cbn in Hoff. by rewrite (commandTopic_lastChar rt appConf b Hb) in Hoff.
Qed.

Lemma every_schedule_sends_well_formed_calls_witness :
  commandFilters (FilterEntitiesWithCommands (GetEntities linuxHost (officePc "4f1c" true))) ∅
    !! "office-pc/state" = None.
Proof.
  destruct (every_schedule_sends_well_formed_calls linuxHost
              (calmEnv (Ok (officePc "4f1c" true))) (officePc "4f1c" true)
              (overlappingTicks "EOF")) as [_ Hnone].
  destruct (overlappingTicks_stands linuxHost (calmEnv (Ok (officePc "4f1c" true)))
              (officePc "4f1c" true) "EOF") as (Hcalls & _).
  apply (Hnone "office-pc/state" "online" 1 true _
           (FilterEntitiesWithCommands (GetEntities linuxHost (officePc "4f1c" true)))).
  - eapply proj1, transportCalls_elem. rewrite Hcalls.
    apply elem_of_app. right. apply elem_of_app. left.
    unfold connectionCalls. rewrite sensorStateCalls_GetEntities.
    apply elem_of_app. right. apply list_elem_of_here.
  - eapply proj1, transportCalls_elem. rewrite Hcalls.
    apply elem_of_app. right. apply elem_of_app. left.
    unfold connectionCalls. rewrite subscribeCalls_GetEntities.
    apply elem_of_app. right. apply elem_of_app. right. apply list_elem_of_here.
Defined.
